(** * rl-cloud-api-sdk: the wait-for-status helpers of [CloudAPISDK]

    A shallow embedding of the polling helpers of [src/api.ts]
    ([waitForSubscriptionStatus], [waitForVpcPeeringStatus],
    [waitForDatabaseStatus], [waitForSubscriptionDatabasesStatus],
    [waitForCloudAccountStatus], [waitForTaskStatus]) and the properties
    of their loops.

    Modelling choices.
    - A JavaScript value that the helpers compare is a [JsVal]: [undefined],
      [null], a boolean, a number or a string, the scalars of a JSON reply;
      [!==] is strict inequality on them.  Numbers are integers, which
      leaves [NaN] out.
    - Durations ([timeoutInSeconds], [sleepTimeInSeconds],
      [timePassedInSeconds]) are whole seconds in [Z]; [+=] is [Z.add] and
      [<=] is [Z.leb].  JavaScript numbers are doubles: a double holds every
      integer up to 2^53 in absolute value, and the sum of two of them is
      exact when it is one of them.  [exact_durations] says so of a timeout
      and a sleep time; the properties that count fetches against the
      timeout, or bound the time slept by it, assume it.
    - An [async] function is a computation in the monad [Async]: it threads
      the [World], the chronological list of the effects performed so far
      (requests through the accessors, sleeps, log lines), and settles as
      [Resolved v] or [Rejected x]; [await] is [bind].  What a call is
      rejected with is a [Rejection]: the error of a failed request, or the
      [ReferenceError] thrown by the read of an identifier that no
      declaration in scope binds.  The module runs on Node, whose global
      object has no [status].
    - The remote service is an oracle [remote]: its reply to a request given
      how many requests it served before.  The accessors
      ([this.subscription], [this.database], ...) are collaborators: a call
      either resolves with the reply body or rejects with the transport's
      error.
    - A [while] loop takes [fuel], a bound on its number of iterations;
      [Pending] is the outcome of a run that is still looping when the fuel
      is used up.  A loop terminates when some fuel settles it, and diverges
      when every fuel leaves it [Pending].
    - [this.log] and [this.sleep] belong to the base class [Client]; they are
      recorded as events.  The text of a log message is not modelled. *)

From Stdlib Require Import ZArith List String Bool Lia.
Import ListNotations.
Local Open Scope string_scope.
Local Open Scope list_scope.
Local Open Scope Z_scope.

(** ** JavaScript values *)

Inductive JsVal : Type :=
| JUndefined
| JNull
| JBool (b : bool)
| JNum (n : Z)
| JStr (s : string).

(** [a === b] on [JsVal]: same type and same value. *)
Definition strict_eq (a b : JsVal) : bool :=
  match a, b with
  | JUndefined, JUndefined => true
  | JNull, JNull => true
  | JBool x, JBool y => Bool.eqb x y
  | JNum x, JNum y => Z.eqb x y
  | JStr x, JStr y => String.eqb x y
  | _, _ => false
  end.

Definition strict_neq (a b : JsVal) : bool := negb (strict_eq a b).

Declare Scope js_scope.
Delimit Scope js_scope with js.
Notation "a !== b" := (strict_neq a b) (at level 70, no associativity) : js_scope.
Local Open Scope js_scope.

(** A parameter with a default value: [None] is an omitted argument. *)
Definition or_default {A : Type} (arg : option A) (dflt : A) : A :=
  match arg with
  | Some a => a
  | None => dflt
  end.

(** ** Responses

    The response types are declared in [./types/responses/*] and
    [./types/task]; each is a fixed shape intersected with
    [{[key: string]: any}].  The records keep the fields the helpers read and
    the open bag of the other fields. *)

Definition Fields : Type := list (string * JsVal).

Module SubscriptionResponse.
Record t : Type := mk { id : Z; status : JsVal; extra : Fields }.
End SubscriptionResponse.

Module SubscriptionVpcPeering.
Record t : Type := mk { id : Z; status : JsVal; extra : Fields }.
End SubscriptionVpcPeering.

Module DatabaseResponse.
Record t : Type := mk { databaseId : Z; status : JsVal; extra : Fields }.
End DatabaseResponse.

Module CloudAccountResponse.
Record t : Type := mk { id : Z; status : JsVal; extra : Fields }.
End CloudAccountResponse.

Module TaskResponse.
Record t : Type := mk { taskId : Z; status : JsVal; extra : Fields }.
End TaskResponse.

(** [type Error] of [src/api.ts]: the envelope of a failed request (the
    fields of its [response]). *)
Record Error : Type := mkError {
  response_status : JsVal;
  response_statusText : string;
  response_data : string
}.

(** What an [async] function is rejected with: the error of a request that
    failed, or the [ReferenceError] that the read of the identifier [name]
    throws when nothing in scope declares it. *)
Inductive Rejection : Type :=
| RequestError (e : Error)
| ReferenceError (name : string).

Coercion RequestError : Error >-> Rejection.

(** ** Effects *)

(** The calls on the accessors that the helpers make, with the type of the
    reply body. *)
Inductive Request : Type -> Type :=
| GetSubscription (subscriptionId : Z) : Request SubscriptionResponse.t
| GetVpcPeerings (subscriptionId : Z) : Request (list SubscriptionVpcPeering.t)
| GetDatabases (subscriptionId : Z) : Request (list DatabaseResponse.t)
| GetDatabase (subscriptionId databaseId : Z) : Request DatabaseResponse.t
| GetCloudAccount (cloudAccountId : Z) : Request CloudAccountResponse.t
| GetTask (taskId : Z) : Request TaskResponse.t.

Inductive Reply (T : Type) : Type :=
| Ok (body : T)
| Fail (e : Error).
Arguments Ok {T} body.
Arguments Fail {T} e.

Inductive Event : Type :=
| EvRequest {T : Type} (q : Request T)
| EvSleep (seconds : Z)
| EvLog (level : string).

(** The effects performed so far, oldest first. *)
Definition World : Type := list Event.

Definition is_request (e : Event) : bool :=
  match e with
  | EvRequest _ => true
  | _ => false
  end.

Definition is_sleep (e : Event) : bool :=
  match e with
  | EvSleep _ => true
  | _ => false
  end.

(** Number of requests made, number of sleeps, and seconds slept. *)
Definition fetches (w : World) : nat := List.length (List.filter is_request w).
Definition sleeps (w : World) : nat := List.length (List.filter is_sleep w).

Fixpoint slept (w : World) : Z :=
  match w with
  | [] => 0
  | EvSleep s :: w' => s + slept w'
  | _ :: w' => slept w'
  end.

(** The remote service: the reply to a request, given the number of requests
    served before it. *)
Definition Remote : Type := nat -> forall T : Type, Request T -> Reply T.

Inductive Outcome (A : Type) : Type :=
| Resolved (a : A)
| Rejected (x : Rejection)
| Pending.
Arguments Resolved {A} a.
Arguments Rejected {A} x.
Arguments Pending {A}.

Definition Async (A : Type) : Type := World -> Outcome A * World.

Definition ret {A : Type} (a : A) : Async A := fun w => (Resolved a, w).

Definition bind {A B : Type} (m : Async A) (k : A -> Async B) : Async B :=
  fun w =>
    match m w with
    | (Resolved a, w') => k a w'
    | (Rejected x, w') => (Rejected x, w')
    | (Pending, w') => (Pending, w')
    end.

Definition pending {A : Type} : Async A := fun w => (Pending, w).

(** The read of the identifier [name] where no declaration binds it: the
    [ReferenceError] it throws rejects the [async] function. *)
Definition unbound {A : Type} (name : string) : Async A :=
  fun w => (Rejected (ReferenceError name), w).

Declare Scope async_scope.
Delimit Scope async_scope with async.
Notation "x <- m ;; k" := (bind m (fun x => k))
  (at level 61, m at next level, right associativity) : async_scope.
Notation "m ;; k" := (bind m (fun _ => k))
  (at level 61, right associativity) : async_scope.
Local Open Scope async_scope.

(** [while (cond) { body }] over the loop's variables [s]. *)
Fixpoint while_ {V : Type} (fuel : nat) (cond : V -> bool) (body : V -> Async V)
    (s : V) {struct fuel} : Async V :=
  if cond s then
    match fuel with
    | O => pending
    | S fuel' => s' <- body s ;; while_ fuel' cond body s'
    end
  else ret s.

(** [for (const a of l) { body }]. *)
Fixpoint for_of {A : Type} (l : list A) (body : A -> Async unit) : Async unit :=
  match l with
  | [] => ret tt
  | a :: l' => body a ;; for_of l' body
  end.

(** [array.find(pred)]: the first element that satisfies [pred], or
    [undefined] ([None]). *)
Definition find {A : Type} (pred : A -> bool) (l : list A) : option A :=
  List.find pred l.

Section CloudAPISDK.

Variable remote : Remote.

(** A call on an accessor and the [await] of its promise. *)
Definition request {T : Type} (q : Request T) : Async T :=
  fun w =>
    match remote (fetches w) T q with
    | Ok body => (Resolved body, w ++ [EvRequest q])
    | Fail e => (Rejected (RequestError e), w ++ [EvRequest q])
    end.

(** [Client.sleep] and [Client.log]. *)
Definition sleep (seconds : Z) : Async unit :=
  fun w => (Resolved tt, w ++ [EvSleep seconds]).

Definition log (level : string) : Async unit :=
  fun w => (Resolved tt, w ++ [EvLog level]).

(** *** The accessors' forwarding methods (lines 125, 167, 195, 213, 267, 308) *)

Definition getSubscription (subscriptionId : Z) : Async SubscriptionResponse.t :=
  request (GetSubscription subscriptionId).

Definition getVpcPeerings (subscriptionId : Z) : Async (list SubscriptionVpcPeering.t) :=
  request (GetVpcPeerings subscriptionId).

Definition getDatabases (subscriptionId : Z) : Async (list DatabaseResponse.t) :=
  request (GetDatabases subscriptionId).

Definition getDatabase (subscriptionId databaseId : Z) : Async DatabaseResponse.t :=
  request (GetDatabase subscriptionId databaseId).

Definition getCloudAccount (cloudAccountId : Z) : Async CloudAccountResponse.t :=
  request (GetCloudAccount cloudAccountId).

Definition getTask (taskId : Z) : Async TaskResponse.t :=
  request (GetTask taskId).

(** *** The helpers *)

(** [waitForSubscriptionStatus] (lines 321-332). *)
Definition waitForSubscriptionStatus (subscriptionId : Z)
    (expectedStatus : JsVal) (timeoutInSeconds sleepTimeInSeconds : option Z)
    (fuel : nat)
    : Async SubscriptionResponse.t :=
  let timeoutInSeconds := or_default timeoutInSeconds (20 * 60) in
  let sleepTimeInSeconds := or_default sleepTimeInSeconds 5 in
  subscription <- getSubscription subscriptionId ;;
  let timePassedInSeconds := 0 in
  st <- while_ fuel
    (fun '(subscription, timePassedInSeconds) =>
       (SubscriptionResponse.status subscription !== expectedStatus)
       && (SubscriptionResponse.status subscription !== JStr "error")
       && (SubscriptionResponse.status subscription !== JUndefined)
       && (timePassedInSeconds <=? timeoutInSeconds))
    (fun '(subscription, timePassedInSeconds) =>
       log "debug" ;;
       sleep sleepTimeInSeconds ;;
       let timePassedInSeconds := timePassedInSeconds + sleepTimeInSeconds in
       subscription <- getSubscription subscriptionId ;;
       ret (subscription, timePassedInSeconds))
    (subscription, timePassedInSeconds) ;;
  let '(subscription, timePassedInSeconds) := st in
  log "debug" ;;
  ret subscription.

(** [waitForVpcPeeringStatus] (lines 342-359).  The loop's variables are
    [vpcPeering], [status] and [timePassedInSeconds]; [status] is assigned
    only when [find] yields an entry.  [status] is declared by the [let] of
    line 347, inside the block of the [if] that line 356 closes.  The
    template literal of line 357, after that block, reads [status]: no
    declaration binds it there (none at the top of the module either), so
    the read throws before [this.log] is called, and line 358 is not
    reached. *)
Definition waitForVpcPeeringStatus (subscriptionId vpcPeeringId : Z)
    (expectedStatus : JsVal) (timeoutInSeconds sleepTimeInSeconds : option Z)
    (fuel : nat)
    : Async (option SubscriptionVpcPeering.t) :=
  let timeoutInSeconds := or_default timeoutInSeconds (5 * 60) in
  let sleepTimeInSeconds := or_default sleepTimeInSeconds 5 in
  vpcPeerings <- getVpcPeerings subscriptionId ;;
  let vpcPeering :=
    find (fun vpcPeering => SubscriptionVpcPeering.id vpcPeering =? vpcPeeringId) vpcPeerings in
  let timePassedInSeconds := 0 in
  vpcPeering <-
    match vpcPeering with
    | Some found =>
        let status := SubscriptionVpcPeering.status found in
        st <- while_ fuel
          (fun '(vpcPeering, status, timePassedInSeconds) =>
             (status !== expectedStatus)
             && (status !== JStr "failed")
             && (status !== JUndefined)
             && (timePassedInSeconds <=? timeoutInSeconds))
          (fun '(vpcPeering, status, timePassedInSeconds) =>
             log "debug" ;;
             sleep sleepTimeInSeconds ;;
             let timePassedInSeconds := timePassedInSeconds + sleepTimeInSeconds in
             vpcPeerings <- getVpcPeerings subscriptionId ;;
             let vpcPeering :=
               find (fun vpcPeering => SubscriptionVpcPeering.id vpcPeering =? vpcPeeringId)
                    vpcPeerings in
             let status :=
               match vpcPeering with
               | Some found => SubscriptionVpcPeering.status found
               | None => status
               end in
             ret (vpcPeering, status, timePassedInSeconds))
          (vpcPeering, status, timePassedInSeconds) ;;
        let '(vpcPeering, status, timePassedInSeconds) := st in
        ret vpcPeering
    | None => ret vpcPeering
    end ;;
  status <- unbound (A := JsVal) "status" ;;
  log "debug" ;;
  ret vpcPeering.

(** [waitForDatabaseStatus] (lines 369-380). *)
Definition waitForDatabaseStatus (subscriptionId databaseId : Z)
    (expectedStatus : JsVal) (timeoutInSeconds sleepTimeInSeconds : option Z)
    (fuel : nat)
    : Async DatabaseResponse.t :=
  let timeoutInSeconds := or_default timeoutInSeconds (5 * 60) in
  let sleepTimeInSeconds := or_default sleepTimeInSeconds 5 in
  database <- getDatabase subscriptionId databaseId ;;
  let timePassedInSeconds := 0 in
  st <- while_ fuel
    (fun '(database, timePassedInSeconds) =>
       (DatabaseResponse.status database !== expectedStatus)
       && (DatabaseResponse.status database !== JStr "error")
       && (DatabaseResponse.status database !== JUndefined)
       && (timePassedInSeconds <=? timeoutInSeconds))
    (fun '(database, timePassedInSeconds) =>
       log "debug" ;;
       sleep sleepTimeInSeconds ;;
       let timePassedInSeconds := timePassedInSeconds + sleepTimeInSeconds in
       database <- getDatabase subscriptionId databaseId ;;
       ret (database, timePassedInSeconds))
    (database, timePassedInSeconds) ;;
  let '(database, timePassedInSeconds) := st in
  log "debug" ;;
  ret database.

(** [waitForSubscriptionDatabasesStatus] (lines 389-394). *)
Definition waitForSubscriptionDatabasesStatus (subscriptionId : Z)
    (expectedStatus : option JsVal) (timeoutInSeconds sleepTimeInSeconds : option Z)
    (fuel : nat)
    : Async unit :=
  let expectedStatus := or_default expectedStatus (JStr "active") in
  let timeoutInSeconds := or_default timeoutInSeconds (5 * 60) in
  let sleepTimeInSeconds := or_default sleepTimeInSeconds 5 in
  databases <- getDatabases subscriptionId ;;
  for_of databases (fun database =>
    waitForDatabaseStatus subscriptionId (DatabaseResponse.databaseId database)
      expectedStatus (Some timeoutInSeconds) (Some sleepTimeInSeconds) fuel ;;
    ret tt).

(** [waitForCloudAccountStatus] (lines 403-414). *)
Definition waitForCloudAccountStatus (cloudAccountId : Z)
    (expectedStatus : JsVal) (timeoutInSeconds sleepTimeInSeconds : option Z)
    (fuel : nat)
    : Async CloudAccountResponse.t :=
  let timeoutInSeconds := or_default timeoutInSeconds (5 * 60) in
  let sleepTimeInSeconds := or_default sleepTimeInSeconds 5 in
  cloudAccount <- getCloudAccount cloudAccountId ;;
  let timePassedInSeconds := 0 in
  st <- while_ fuel
    (fun '(cloudAccount, timePassedInSeconds) =>
       (CloudAccountResponse.status cloudAccount !== expectedStatus)
       && (CloudAccountResponse.status cloudAccount !== JStr "error")
       && (CloudAccountResponse.status cloudAccount !== JUndefined)
       && (timePassedInSeconds <=? timeoutInSeconds))
    (fun '(cloudAccount, timePassedInSeconds) =>
       log "debug" ;;
       sleep sleepTimeInSeconds ;;
       let timePassedInSeconds := timePassedInSeconds + sleepTimeInSeconds in
       cloudAccount <- getCloudAccount cloudAccountId ;;
       ret (cloudAccount, timePassedInSeconds))
    (cloudAccount, timePassedInSeconds) ;;
  let '(cloudAccount, timePassedInSeconds) := st in
  log "debug" ;;
  ret cloudAccount.

(** [waitForTaskStatus] (lines 423-425): the defaults of the facade, then
    the method of the accessor [this.task], here [task_waitForTaskStatus]. *)
Definition waitForTaskStatus
    (task_waitForTaskStatus : Z -> JsVal -> Z -> Z -> nat -> Async TaskResponse.t)
    (taskId : Z)
    (expectedStatus : JsVal) (timeoutInSeconds sleepTimeInSeconds : option Z)
    (fuel : nat)
    : Async TaskResponse.t :=
  let timeoutInSeconds := or_default timeoutInSeconds (20 * 60) in
  let sleepTimeInSeconds := or_default sleepTimeInSeconds 5 in
  task_waitForTaskStatus taskId expectedStatus timeoutInSeconds sleepTimeInSeconds fuel.

End CloudAPISDK.

(** ** The shape shared by the polling loops

    Every helper fetches once, then repeats [log; sleep; fetch] while the
    observed status is neither the expected one, nor the error sentinel, nor
    [undefined], and the time passed has not exceeded the timeout.  [poll]
    is that shape over the loop's variables: [init] builds them from the
    first reply, [upd] assigns them from a later reply, [st] is the status
    the condition reads. *)

Definition continuing (expectedStatus sentinel status : JsVal) : bool :=
  (status !== expectedStatus) && (status !== sentinel) && (status !== JUndefined).

Definition poll_cond {V : Type} (st : V -> JsVal) (expectedStatus sentinel : JsVal)
    (timeoutInSeconds : Z) : V * Z -> bool :=
  fun '(s, timePassedInSeconds) =>
    continuing expectedStatus sentinel (st s)
    && (timePassedInSeconds <=? timeoutInSeconds).

Definition poll_body {X V : Type} (remote : Remote) (q : Request X)
    (upd : V -> X -> V) (sleepTimeInSeconds : Z) : V * Z -> Async (V * Z) :=
  fun '(s, timePassedInSeconds) =>
    log "debug" ;;
    sleep sleepTimeInSeconds ;;
    x <- request remote q ;;
    ret (upd s x, timePassedInSeconds + sleepTimeInSeconds).

Definition poll {X V : Type} (remote : Remote) (fuel : nat) (q : Request X)
    (init : X -> V) (upd : V -> X -> V) (st : V -> JsVal)
    (expectedStatus sentinel : JsVal) (timeoutInSeconds sleepTimeInSeconds : Z)
    : Async (V * Z) :=
  x <- request remote q ;;
  while_ fuel
    (poll_cond st expectedStatus sentinel timeoutInSeconds)
    (poll_body remote q upd sleepTimeInSeconds)
    (init x, 0).

(** The loop's variables after [k] iterations, when the [i]-th fetch of the
    loop is answered [xs i]. *)
Fixpoint track {X V : Type} (upd : V -> X -> V) (xs : nat -> X) (s : V) (k : nat) : V :=
  match k with
  | O => s
  | S k' => upd (track upd xs s k') (xs k')
  end.

(** The events of [n] iterations of a loop that repeats the request [q]. *)
Fixpoint iterations {X : Type} (q : Request X) (sleepTimeInSeconds : Z) (n : nat) : World :=
  match n with
  | O => []
  | S n' =>
      [EvLog "debug"; EvSleep sleepTimeInSeconds; EvRequest q]
        ++ iterations q sleepTimeInSeconds n'
  end.

(** The loop's variables after the [k]-th fetch of a helper (the first
    fetch is number 0), when the fetches are answered [xs 0, xs 1, ...]. *)
Definition observed {X V : Type} (init : X -> V) (upd : V -> X -> V) (xs : nat -> X)
    (k : nat) : V :=
  track upd (fun i => xs (S i)) (init (xs O)) k.

(** The variables of the VPC-peering loop, [(vpcPeering, status)]: a first
    lookup that finds nothing skips the loop, which is what an undefined
    status does. *)
Definition vpc_lookup (vpcPeeringId : Z) (vpcPeerings : list SubscriptionVpcPeering.t)
    : option SubscriptionVpcPeering.t :=
  find (fun vpcPeering => SubscriptionVpcPeering.id vpcPeering =? vpcPeeringId) vpcPeerings.

Definition vpc_init (vpcPeeringId : Z) (vpcPeerings : list SubscriptionVpcPeering.t)
    : option SubscriptionVpcPeering.t * JsVal :=
  match vpc_lookup vpcPeeringId vpcPeerings with
  | Some found => (Some found, SubscriptionVpcPeering.status found)
  | None => (None, JUndefined)
  end.

Definition vpc_upd (vpcPeeringId : Z) (s : option SubscriptionVpcPeering.t * JsVal)
    (vpcPeerings : list SubscriptionVpcPeering.t)
    : option SubscriptionVpcPeering.t * JsVal :=
  match vpc_lookup vpcPeeringId vpcPeerings with
  | Some found => (Some found, SubscriptionVpcPeering.status found)
  | None => (None, snd s)
  end.

(** [(vpcPeering, status)] after the [k]-th fetch (counted from 0) of
    [waitForVpcPeeringStatus], when the fetches are answered [ls 0, ls 1, ...]. *)
Definition vpc_state (vpcPeeringId : Z) (ls : nat -> list SubscriptionVpcPeering.t)
    (k : nat) : option SubscriptionVpcPeering.t * JsVal :=
  observed (vpc_init vpcPeeringId) (vpc_upd vpcPeeringId) ls k.

(** The fetches and the loop of [waitForVpcPeeringStatus] (lines 343-356)
    closed as the loops of the other helpers are, by a log line and the
    return of [vpcPeering]: what the helper is up to line 356, in the shape
    that the lemmas on [poll] take.  The helper itself ends at line 357. *)
Definition vpc_polling (remote : Remote) (subscriptionId vpcPeeringId : Z)
    (expectedStatus : JsVal) (timeoutInSeconds sleepTimeInSeconds : option Z)
    (fuel : nat)
    : Async (option SubscriptionVpcPeering.t) :=
  r <- poll remote fuel (GetVpcPeerings subscriptionId)
         (vpc_init vpcPeeringId) (vpc_upd vpcPeeringId)
         snd expectedStatus (JStr "failed")
         (or_default timeoutInSeconds 300) (or_default sleepTimeInSeconds 5) ;;
  log "debug" ;;
  ret (fst (fst r)).

(** The events of a helper that returns after [n] iterations of its loop. *)
Definition polling_trace {X : Type} (q : Request X) (sleepTimeInSeconds : Z) (n : nat)
    : World :=
  EvRequest q :: iterations q sleepTimeInSeconds n ++ [EvLog "debug"].

(** A call, started with no effect performed yet, returns [a] leaving the
    events [w]: every fuel from some point on gives that result. *)
Definition returns {A : Type} (run : nat -> Async A) (a : A) (w : World) : Prop :=
  exists fuel0 : nat, forall fuel : nat,
    (fuel0 <= fuel)%nat -> run fuel [] = (Resolved a, w).

(** A call does not terminate: whatever the fuel, it is still running. *)
Definition diverges {A : Type} (run : nat -> Async A) : Prop :=
  forall fuel : nat, fst (run fuel []) = Pending.

(** A run has settled (it is not still polling) within [nfetches] requests. *)
Definition settled_within {A : Type} (nfetches : Z) (o : Outcome A * World) : Prop :=
  fst o <> Pending /\ Z.of_nat (fetches (snd o)) <= nfetches.

(** A call does not terminate and the time it has slept stays 0. *)
Definition stuck {A : Type} (run : nat -> Async A) : Prop :=
  diverges run /\ forall fuel : nat, slept (snd (run fuel [])) = 0.

(** A call returns [a] after [nfetches] requests and [nsleeps] sleeps that
    add up to [elapsed] seconds. *)
Definition returns_with {A : Type} (run : nat -> Async A) (a : A)
    (nfetches nsleeps : nat) (elapsed : Z) : Prop :=
  exists w : World,
    returns run a w /\ fetches w = nfetches /\ sleeps w = nsleeps /\ slept w = elapsed.

(** Every request among the events [w] is the request [q]. *)
Definition only_fetches {X : Type} (q : Request X) (w : World) : Prop :=
  Forall (fun e => is_request e = true -> e = EvRequest q) w.

(** A call rejects with [x] after [nfetches] requests and [nsleeps] sleeps. *)
Definition rejects_with {A : Type} (run : nat -> Async A) (x : Rejection)
    (nfetches nsleeps : nat) : Prop :=
  exists w : World,
    (exists fuel0 : nat, forall fuel : nat,
        (fuel0 <= fuel)%nat -> run fuel [] = (Rejected x, w))
    /\ fetches w = nfetches /\ sleeps w = nsleeps.

(** A call ends, by a return or by a rejection, after [nfetches] requests
    and [nsleeps] sleeps that add up to [elapsed] seconds. *)
Definition stops_after {A : Type} (run : nat -> Async A)
    (nfetches nsleeps : nat) (elapsed : Z) : Prop :=
  exists (o : Outcome A) (w : World),
    o <> Pending
    /\ (exists fuel0 : nat, forall fuel : nat,
          (fuel0 <= fuel)%nat -> run fuel [] = (o, w))
    /\ fetches w = nfetches /\ sleeps w = nsleeps /\ slept w = elapsed.

(** 2^53: a double holds every integer up to it in absolute value. *)
Definition max_exact : Z := 9007199254740992.

(** A timeout and a sleep time, in whole seconds, that the code can be given
    and on which its sums are the integer sums: both are integers that a
    double holds, and so is their sum, which the time passed never
    exceeds when neither is negative. *)
Definition exact_durations (timeoutInSeconds sleepTimeInSeconds : Z) : Prop :=
  Z.abs timeoutInSeconds <= max_exact
  /\ Z.abs sleepTimeInSeconds <= max_exact
  /\ timeoutInSeconds + sleepTimeInSeconds <= max_exact.

(** The events of a wait on a database that returns after its first fetch. *)
Definition database_checked (subscriptionId : Z) (database : DatabaseResponse.t) : World :=
  [EvRequest (GetDatabase subscriptionId (DatabaseResponse.databaseId database));
   EvLog "debug"].

(** ** Remote services used as concrete inputs *)

(** Every resource shows the status [statuses k] at the [k]-th request; a
    subscription has the VPC peering 1 and the databases 1 and 2. *)
Definition status_feed (statuses : nat -> JsVal) : Remote :=
  fun k T q =>
    match q in Request T return Reply T with
    | GetSubscription subscriptionId =>
        Ok (SubscriptionResponse.mk subscriptionId (statuses k) [])
    | GetVpcPeerings _ =>
        Ok [SubscriptionVpcPeering.mk 1 (statuses k) []]
    | GetDatabases _ =>
        Ok [DatabaseResponse.mk 1 (statuses k) []; DatabaseResponse.mk 2 (statuses k) []]
    | GetDatabase _ databaseId =>
        Ok (DatabaseResponse.mk databaseId (statuses k) [])
    | GetCloudAccount cloudAccountId =>
        Ok (CloudAccountResponse.mk cloudAccountId (statuses k) [])
    | GetTask taskId =>
        Ok (TaskResponse.mk taskId (statuses k) [])
    end.

(** The status [statuses k] read from a list, [last] beyond its end. *)
Definition script (statuses : list JsVal) (last : JsVal) : nat -> JsVal :=
  fun k => nth k statuses last.

(** The list of VPC peerings is [peerings k] at the [k]-th request; the
    other requests fail. *)
Definition vpc_feed (peerings : nat -> list SubscriptionVpcPeering.t) : Remote :=
  fun k T q =>
    match q in Request T return Reply T with
    | GetVpcPeerings _ => Ok (peerings k)
    | _ => Fail (mkError (JNum 404) "Not Found" "")
    end.


(** ** Counting events *)

Lemma fetches_app (w1 w2 : World) : fetches (w1 ++ w2) = (fetches w1 + fetches w2)%nat.
Proof. unfold fetches. now rewrite filter_app, length_app. Qed.

Lemma sleeps_app (w1 w2 : World) : sleeps (w1 ++ w2) = (sleeps w1 + sleeps w2)%nat.
Proof. unfold sleeps. now rewrite filter_app, length_app. Qed.

Lemma slept_app (w1 w2 : World) : slept (w1 ++ w2) = slept w1 + slept w2.
Proof.
  induction w1 as [|e w1 IH]; simpl; [reflexivity|].
  destruct e; rewrite IH; lia.
Qed.

Lemma fetches_iterations {X : Type} (q : Request X) (sl : Z) (n : nat) :
  fetches (iterations q sl n) = n.
Proof.
  induction n as [|n IH]; [reflexivity|].
  change (iterations q sl (S n)) with
    ([EvLog "debug"; EvSleep sl; EvRequest q] ++ iterations q sl n).
  rewrite fetches_app, IH. reflexivity.
Qed.

Lemma sleeps_iterations {X : Type} (q : Request X) (sl : Z) (n : nat) :
  sleeps (iterations q sl n) = n.
Proof.
  induction n as [|n IH]; [reflexivity|].
  change (iterations q sl (S n)) with
    ([EvLog "debug"; EvSleep sl; EvRequest q] ++ iterations q sl n).
  rewrite sleeps_app, IH. reflexivity.
Qed.

Lemma slept_iterations {X : Type} (q : Request X) (sl : Z) (n : nat) :
  slept (iterations q sl n) = Z.of_nat n * sl.
Proof.
  induction n as [|n IH]; [reflexivity|].
  change (iterations q sl (S n)) with
    ([EvLog "debug"; EvSleep sl; EvRequest q] ++ iterations q sl n).
  rewrite slept_app, IH. simpl slept. lia.
Qed.

Lemma track_shift {X V : Type} (upd : V -> X -> V) (xs : nat -> X) (s : V) (k : nat) :
  track upd xs s (S k) = track upd (fun i => xs (S i)) (upd s (xs O)) k.
Proof.
  induction k as [|k IH]; [reflexivity|].
  change (track upd xs s (S (S k))) with (upd (track upd xs s (S k)) (xs (S k))).
  rewrite IH. reflexivity.
Qed.

(** ** Unfolding [while_] *)

Lemma while_stop {V : Type} (fuel : nat) (cond : V -> bool) (body : V -> Async V) (s : V) :
  cond s = false -> while_ fuel cond body s = ret s.
Proof. intros H. destruct fuel; simpl; now rewrite H. Qed.

Lemma while_step {V : Type} (fuel : nat) (cond : V -> bool) (body : V -> Async V) (s : V) :
  cond s = true ->
  while_ (S fuel) cond body s = (s' <- body s ;; while_ fuel cond body s').
Proof. intros H. simpl. now rewrite H. Qed.

Lemma while_out_of_fuel {V : Type} (cond : V -> bool) (body : V -> Async V) (s : V) :
  cond s = true -> while_ O cond body s = pending.
Proof. intros H. simpl. now rewrite H. Qed.

(** ** The loop of [poll] *)

Section PollLoop.

Context {X V : Type}.
Variable remote : Remote.
Variable q : Request X.
Variable upd : V -> X -> V.
Variable st : V -> JsVal.
Variables expectedStatus sentinel : JsVal.
Variables timeout sl : Z.

Local Abbreviation cond := (poll_cond st expectedStatus sentinel timeout).
Local Abbreviation body := (poll_body remote q upd sl).

Lemma poll_body_ok (s : V) (t : Z) (w : World) (x : X) :
  remote (fetches w) X q = Ok x ->
  body (s, t) w
  = (Resolved (upd s x, t + sl), w ++ [EvLog "debug"; EvSleep sl; EvRequest q]).
Proof.
  intros H. unfold body, poll_body, bind, log, sleep, request, ret. simpl.
  rewrite !fetches_app. simpl. rewrite !Nat.add_0_r, H.
  now rewrite <- !app_assoc.
Qed.

Lemma poll_body_fail (s : V) (t : Z) (w : World) (e : Error) :
  remote (fetches w) X q = Fail e ->
  body (s, t) w
  = (Rejected e, w ++ [EvLog "debug"; EvSleep sl; EvRequest q]).
Proof.
  intros H. unfold body, poll_body, bind, log, sleep, request, ret. simpl.
  rewrite !fetches_app. simpl. rewrite !Nat.add_0_r, H.
  now rewrite <- !app_assoc.
Qed.

(** [n] iterations: if the loop's condition holds at the first [n] tests and
    fails at the next one, any fuel from [n] on gives the variables after
    [n] iterations. *)
Lemma while_poll_run (n : nat) :
  forall (xs : nat -> X) (s : V) (t : Z) (w : World) (fuel : nat),
    (forall k, (k < n)%nat -> remote (fetches w + k)%nat X q = Ok (xs k)) ->
    (forall k, (k < n)%nat -> cond (track upd xs s k, t + Z.of_nat k * sl) = true) ->
    cond (track upd xs s n, t + Z.of_nat n * sl) = false ->
    (n <= fuel)%nat ->
    while_ fuel cond body (s, t) w
    = (Resolved (track upd xs s n, t + Z.of_nat n * sl), w ++ iterations q sl n).
Proof.
  induction n as [|n IH]; intros xs s t w fuel Hok Hgo Hstop Hfuel.
  - change (track upd xs s 0) with s in *.
    replace (t + Z.of_nat 0 * sl) with t in * by lia.
    rewrite (while_stop _ _ _ _ Hstop). unfold ret. simpl.
    now rewrite app_nil_r.
  - destruct fuel as [|fuel]; [lia|].
    assert (H0 : cond (s, t) = true).
    { specialize (Hgo O ltac:(lia)). change (track upd xs s 0) with s in Hgo.
      now replace (t + Z.of_nat 0 * sl) with t in Hgo by lia. }
    rewrite (while_step _ _ _ _ H0). unfold bind.
    rewrite (poll_body_ok s t w (xs O)).
    2:{ specialize (Hok O ltac:(lia)). now rewrite Nat.add_0_r in Hok. }
    rewrite (IH (fun i => xs (S i)) (upd s (xs O)) (t + sl)).
    + rewrite <- track_shift. rewrite <- app_assoc.
      f_equal. f_equal. f_equal. lia.
    + intros k Hk. rewrite fetches_app.
      change (fetches [EvLog "debug"; EvSleep sl; EvRequest q]) with 1%nat.
      replace (fetches w + 1 + k)%nat with (fetches w + S k)%nat by lia.
      apply Hok. lia.
    + intros k Hk. rewrite <- track_shift.
      replace (t + sl + Z.of_nat k * sl) with (t + Z.of_nat (S k) * sl) by lia.
      apply Hgo. lia.
    + rewrite <- track_shift.
      replace (t + sl + Z.of_nat n * sl) with (t + Z.of_nat (S n) * sl) by lia.
      exact Hstop.
    + lia.
Qed.

(** A loop whose condition holds at every test is still running whatever
    the fuel. *)
Lemma while_poll_pending (fuel : nat) :
  forall (xs : nat -> X) (s : V) (t : Z) (w : World),
    (forall k, remote (fetches w + k)%nat X q = Ok (xs k)) ->
    (forall k, cond (track upd xs s k, t + Z.of_nat k * sl) = true) ->
    fst (while_ fuel cond body (s, t) w) = Pending.
Proof.
  induction fuel as [|fuel IH]; intros xs s t w Hok Hgo.
  - pose proof (Hgo O) as H0. change (track upd xs s 0) with s in H0.
    replace (t + Z.of_nat 0 * sl) with t in H0 by lia.
    now rewrite (while_out_of_fuel _ _ _ H0).
  - pose proof (Hgo O) as H0. change (track upd xs s 0) with s in H0.
    replace (t + Z.of_nat 0 * sl) with t in H0 by lia.
    rewrite (while_step _ _ _ _ H0). unfold bind.
    rewrite (poll_body_ok s t w (xs O)).
    2:{ specialize (Hok O). now rewrite Nat.add_0_r in Hok. }
    apply (IH (fun i => xs (S i))).
    + intros k. rewrite fetches_app.
      change (fetches [EvLog "debug"; EvSleep sl; EvRequest q]) with 1%nat.
      replace (fetches w + 1 + k)%nat with (fetches w + S k)%nat by lia.
      apply Hok.
    + intros k. rewrite <- track_shift.
      replace (t + sl + Z.of_nat k * sl) with (t + Z.of_nat (S k) * sl) by lia.
      apply Hgo.
Qed.

(** Whatever the replies: once [m] more sleeps take the time passed beyond
    the timeout, fuel [m] settles the loop within [m] further fetches, as
    many sleeps as fetches. *)
Lemma while_poll_bound (m : nat) :
  forall (s : V) (t : Z) (w : World) (fuel : nat),
    0 <= sl ->
    timeout < t + Z.of_nat m * sl ->
    (m <= fuel)%nat ->
    exists n : nat,
      (n <= m)%nat
      /\ fst (while_ fuel cond body (s, t) w) <> Pending
      /\ snd (while_ fuel cond body (s, t) w) = w ++ iterations q sl n.
Proof.
  induction m as [|m IH]; intros s t w fuel Hsl Hm Hfuel.
  - exists O. split; [lia|].
    assert (H0 : cond (s, t) = false).
    { unfold cond, poll_cond. apply andb_false_intro2. apply Z.leb_gt. lia. }
    rewrite (while_stop _ _ _ _ H0). simpl. rewrite app_nil_r.
    split; [discriminate|reflexivity].
  - destruct fuel as [|fuel]; [lia|].
    destruct (cond (s, t)) eqn:H0.
    + rewrite (while_step _ _ _ _ H0). unfold bind.
      destruct (remote (fetches w) X q) as [x|e] eqn:Hr.
      * rewrite (poll_body_ok s t w x Hr).
        destruct (IH (upd s x) (t + sl)
                    (w ++ [EvLog "debug"; EvSleep sl; EvRequest q]) fuel)
          as (n & Hn & Hp & Hw); [lia|lia|lia|].
        exists (S n). split; [lia|]. split; [exact Hp|].
        rewrite Hw. now rewrite <- app_assoc.
      * rewrite (poll_body_fail s t w e Hr).
        exists 1%nat. split; [lia|]. simpl. split; [discriminate|reflexivity].
    + exists O. split; [lia|].
      rewrite (while_stop _ _ _ _ H0). simpl. rewrite app_nil_r.
      split; [discriminate|reflexivity].
Qed.

End PollLoop.

(** The events of the loop, whatever its outcome, and what a settled loop
    leaves in its variables. *)
Lemma while_poll_world {X V : Type} (remote : Remote) (q : Request X)
    (upd : V -> X -> V) (st : V -> JsVal) (expectedStatus sentinel : JsVal)
    (timeout sl : Z) (fuel : nat) :
  forall (s : V) (t : Z) (w : World),
  exists n : nat,
    snd (while_ fuel (poll_cond st expectedStatus sentinel timeout)
           (poll_body remote q upd sl) (s, t) w)
    = w ++ iterations q sl n
    /\ (n <= fuel)%nat
    /\ forall s' t',
         fst (while_ fuel (poll_cond st expectedStatus sentinel timeout)
                (poll_body remote q upd sl) (s, t) w)
         = Resolved (s', t') ->
         poll_cond st expectedStatus sentinel timeout (s', t') = false
         /\ t' = t + Z.of_nat n * sl.
Proof.
  induction fuel as [|fuel IH]; intros s t w;
    destruct (poll_cond st expectedStatus sentinel timeout (s, t)) eqn:H0.
  - exists O. rewrite (while_out_of_fuel _ _ _ H0). simpl. rewrite app_nil_r.
    repeat split; [lia|discriminate|discriminate].
  - exists O. rewrite (while_stop _ _ _ _ H0). simpl. rewrite app_nil_r.
    split; [reflexivity|]. split; [lia|].
    intros s' t' E. injection E as <- <-. split; [exact H0|lia].
  - rewrite (while_step _ _ _ _ H0). unfold bind.
    destruct (remote (fetches w) X q) as [x|e] eqn:Hr.
    + rewrite (poll_body_ok remote q upd sl s t w x Hr).
      destruct (IH (upd s x) (t + sl)
                  (w ++ [EvLog "debug"; EvSleep sl; EvRequest q]))
        as (n & Hw & Hn & Hres).
      exists (S n). rewrite Hw. split; [now rewrite <- app_assoc|].
      split; [lia|]. intros s' t' E. destruct (Hres s' t' E) as [Hc Ht].
      split; [exact Hc|lia].
    + rewrite (poll_body_fail remote q upd sl s t w e Hr).
      exists 1%nat. simpl. split; [reflexivity|]. split; [lia|]. discriminate.
  - exists O. rewrite (while_stop _ _ _ _ H0). simpl. rewrite app_nil_r.
    split; [reflexivity|]. split; [lia|].
    intros s' t' E. injection E as <- <-. split; [exact H0|lia].
Qed.

Section PollPrefix.

Context {X V : Type}.
Variable remote : Remote.
Variable q : Request X.
Variable upd : V -> X -> V.
Variable st : V -> JsVal.
Variables expectedStatus sentinel : JsVal.
Variables timeout sl : Z.

Local Abbreviation cond := (poll_cond st expectedStatus sentinel timeout).
Local Abbreviation body := (poll_body remote q upd sl).


End PollPrefix.

(** The first index at which a test fails, if any up to [m]. *)
Lemma first_false (f : nat -> bool) (m : nat) :
  (forall k, (k <= m)%nat -> f k = true)
  \/ exists n, (n <= m)%nat /\ f n = false /\ forall k, (k < n)%nat -> f k = true.
Proof.
  induction m as [|m [IH|(n & Hn & Hf & Hlt)]].
  - destruct (f O) eqn:E.
    + left. intros k Hk. now replace k with O by lia.
    + right. exists O. repeat split; [lia|exact E|]. intros k Hk. lia.
  - destruct (f (S m)) eqn:E.
    + left. intros k Hk. destruct (Nat.eq_dec k (S m)) as [->|Hne]; [exact E|].
      apply IH. lia.
    + right. exists (S m). repeat split; [lia|exact E|].
      intros k Hk. apply IH. lia.
  - right. exists n. repeat split; [lia|exact Hf|exact Hlt].
Qed.

(** ** Results of a call *)

Lemma returns_unique {A : Type} (run : nat -> Async A) (a a' : A) (w w' : World) :
  returns run a w -> returns run a' w' -> a = a' /\ w = w'.
Proof.
  intros [f1 H1] [f2 H2].
  specialize (H1 (Nat.max f1 f2) (Nat.le_max_l _ _)).
  specialize (H2 (Nat.max f1 f2) (Nat.le_max_r _ _)).
  rewrite H1 in H2. now injection H2.
Qed.

Lemma polling_trace_counts {X : Type} (q : Request X) (sl : Z) (n : nat) :
  fetches (polling_trace q sl n) = S n
  /\ sleeps (polling_trace q sl n) = n
  /\ slept (polling_trace q sl n) = Z.of_nat n * sl.
Proof.
  unfold polling_trace.
  change (EvRequest q :: iterations q sl n ++ [EvLog "debug"])
    with ([EvRequest q] ++ iterations q sl n ++ [EvLog "debug"]).
  rewrite !fetches_app, !sleeps_app, !slept_app.
  rewrite fetches_iterations, sleeps_iterations, slept_iterations.
  change (fetches [EvRequest q]) with 1%nat.
  change (fetches [EvLog "debug"]) with 0%nat.
  change (sleeps [EvRequest q]) with 0%nat.
  change (sleeps [EvLog "debug"]) with 0%nat.
  change (slept [EvRequest q]) with 0.
  change (slept [EvLog "debug"]) with 0.
  repeat split; lia.
Qed.

Lemma returns_polling_trace {A X : Type} (run : nat -> Async A) (a : A)
    (q : Request X) (sl : Z) (n : nat) :
  returns run a (polling_trace q sl n) ->
  returns_with run a (S n) n (Z.of_nat n * sl).
Proof.
  intros H. exists (polling_trace q sl n).
  destruct (polling_trace_counts q sl n) as (Hf & Hs & Ht). now repeat split.
Qed.

Lemma observed_last {X : Type} (xs : nat -> X) (k : nat) :
  observed (fun x => x) (fun _ x => x) xs k = xs k.
Proof. destruct k; reflexivity. Qed.

Lemma vpc_state_found (vpcPeeringId : Z) (ls : nat -> list SubscriptionVpcPeering.t)
    (k : nat) (found : SubscriptionVpcPeering.t) :
  vpc_lookup vpcPeeringId (ls k) = Some found ->
  vpc_state vpcPeeringId ls k = (Some found, SubscriptionVpcPeering.status found).
Proof.
  intros H. unfold vpc_state, observed. destruct k as [|k]; simpl.
  - unfold vpc_init. now rewrite H.
  - unfold vpc_upd at 1. now rewrite H.
Qed.

Lemma vpc_state_missing (vpcPeeringId : Z) (ls : nat -> list SubscriptionVpcPeering.t)
    (k : nat) :
  vpc_lookup vpcPeeringId (ls (S k)) = None ->
  vpc_state vpcPeeringId ls (S k) = (None, snd (vpc_state vpcPeeringId ls k)).
Proof.
  intros H. unfold vpc_state, observed. simpl. unfold vpc_upd at 1. now rewrite H.
Qed.

Lemma vpc_state_lookup (vpcPeeringId : Z) (ls : nat -> list SubscriptionVpcPeering.t)
    (k : nat) :
  fst (vpc_state vpcPeeringId ls k) = vpc_lookup vpcPeeringId (ls k).
Proof.
  destruct (vpc_lookup vpcPeeringId (ls k)) as [found|] eqn:H.
  - now rewrite (vpc_state_found _ _ _ _ H).
  - destruct k as [|k].
    + unfold vpc_state, observed. simpl. unfold vpc_init. now rewrite H.
    + now rewrite (vpc_state_missing _ _ _ H).
Qed.

(** ** A helper built on [poll] *)

Section Helper.

Context {A X V : Type}.
Variable remote : Remote.
Variable q : Request X.
Variable init : X -> V.
Variable upd : V -> X -> V.
Variable st : V -> JsVal.
Variable out : V -> A.
Variables expectedStatus sentinel : JsVal.
Variables timeout sl : Z.
Variable run : nat -> Async A.

Hypothesis run_poll : forall fuel w,
  run fuel w
  = (r <- poll remote fuel q init upd st expectedStatus sentinel timeout sl ;;
     log "debug" ;;
     ret (out (fst r))) w.

Local Abbreviation seen := (observed init upd).

(** The budget of iterations: after this many sleeps the time passed is
    beyond the timeout. *)
Lemma budget_exceeded :
  0 < sl -> timeout < Z.of_nat (Z.to_nat (timeout / sl) + 1) * sl.
Proof.
  intros Hsl. rewrite Nat2Z.inj_add. change (Z.of_nat 1) with 1.
  destruct (Z.lt_ge_cases timeout 0) as [Hneg|Hpos].
  - assert (0 <= Z.of_nat (Z.to_nat (timeout / sl))) by lia. nia.
  - assert (0 <= timeout / sl) by (apply Z.div_pos; lia).
    rewrite Z2Nat.id by lia.
    pose proof (Z.div_mod timeout sl ltac:(lia)).
    pose proof (Z.mod_pos_bound timeout sl Hsl). nia.
Qed.

Lemma run_from (fuel : nat) (w : World) :
  run fuel w
  = match remote (fetches w) X q with
    | Ok x =>
        match while_ fuel (poll_cond st expectedStatus sentinel timeout)
                (poll_body remote q upd sl) (init x, 0) (w ++ [EvRequest q]) with
        | (Resolved r, w') => (Resolved (out (fst r)), w' ++ [EvLog "debug"])
        | (Rejected e, w') => (Rejected e, w')
        | (Pending, w') => (Pending, w')
        end
    | Fail e => (Rejected e, w ++ [EvRequest q])
    end.
Proof.
  rewrite run_poll. unfold bind at 1. unfold poll, bind at 1, request at 1.
  destruct (remote (fetches w) X q) as [x|e]; reflexivity.
Qed.

Lemma run_start (fuel : nat) :
  run fuel []
  = match remote O X q with
    | Ok x =>
        match while_ fuel (poll_cond st expectedStatus sentinel timeout)
                (poll_body remote q upd sl) (init x, 0) [EvRequest q] with
        | (Resolved r, w') => (Resolved (out (fst r)), w' ++ [EvLog "debug"])
        | (Rejected e, w') => (Rejected e, w')
        | (Pending, w') => (Pending, w')
        end
    | Fail e => (Rejected e, [EvRequest q])
    end.
Proof. apply run_from. Qed.

Lemma helper_returns (n : nat) (xs : nat -> X) :
  (forall k, (k <= n)%nat -> remote k X q = Ok (xs k)) ->
  (forall k, (k < n)%nat ->
     continuing expectedStatus sentinel (st (seen xs k)) = true
     /\ Z.of_nat k * sl <= timeout) ->
  continuing expectedStatus sentinel (st (seen xs n)) = false
  \/ timeout < Z.of_nat n * sl ->
  returns run (out (seen xs n)) (polling_trace q sl n).
Proof.
  intros Hok Hgo Hstop. exists n. intros fuel Hfuel.
  rewrite run_start, (Hok O ltac:(lia)).
  rewrite (while_poll_run remote q upd st expectedStatus sentinel timeout sl n
             (fun i => xs (S i)) (init (xs O)) 0 [EvRequest q] fuel).
  - reflexivity.
  - intros k Hk. apply (Hok (S k)). lia.
  - intros k Hk. unfold poll_cond. apply andb_true_intro.
    destruct (Hgo k Hk) as [Hc Ht]. split; [exact Hc|]. apply Z.leb_le. lia.
  - unfold poll_cond. destruct Hstop as [Hc|Ht].
    + unfold observed in Hc. now rewrite Hc.
    + apply andb_false_intro2. apply Z.leb_gt. lia.
  - exact Hfuel.
Qed.

(** Whatever the replies, a positive sleep time settles the call within the
    budget. *)
Lemma helper_bound (fuel : nat) :
  0 < sl ->
  (Z.to_nat (timeout / sl) + 1 <= fuel)%nat ->
  fst (run fuel []) <> Pending
  /\ (fetches (snd (run fuel [])) <= Z.to_nat (timeout / sl) + 2)%nat.
Proof.
  intros Hsl Hfuel. rewrite run_start.
  destruct (remote O X q) as [x|e].
  - destruct (while_poll_bound remote q upd st expectedStatus sentinel timeout sl
                (Z.to_nat (timeout / sl) + 1) (init x) 0 [EvRequest q] fuel)
      as (n & Hn & Hp & Hw); [lia|rewrite Z.add_0_l; now apply budget_exceeded|lia|].
    destruct (while_ fuel _ _ (init x, 0) [EvRequest q]) as [[r|e|] w'];
      cbn [fst snd] in Hp, Hw; subst w'; cbn [fst snd].
    + split; [discriminate|].
      rewrite !fetches_app, fetches_iterations.
      change (fetches [EvRequest q]) with 1%nat.
      change (fetches [EvLog "debug"]) with 0%nat. lia.
    + split; [discriminate|].
      rewrite fetches_app, fetches_iterations.
      change (fetches [EvRequest q]) with 1%nat. lia.
    + congruence.
  - cbn [fst snd]. split; [discriminate|].
    change (fetches [EvRequest q]) with 1%nat. lia.
Qed.

(** With a sleep time of 0 the time passed stays 0: statuses that keep the
    loop going keep it going forever. *)
Lemma helper_diverges (xs : nat -> X) :
  sl = 0 ->
  0 <= timeout ->
  (forall k, remote k X q = Ok (xs k)) ->
  (forall k, continuing expectedStatus sentinel (st (seen xs k)) = true) ->
  diverges run /\ forall fuel, slept (snd (run fuel [])) = 0.
Proof.
  intros Hsl Hto Hok Hgo.
  assert (Hp : forall fuel,
    fst (while_ fuel (poll_cond st expectedStatus sentinel timeout)
           (poll_body remote q upd sl) (init (xs O), 0) [EvRequest q]) = Pending).
  { intros fuel.
    apply (while_poll_pending remote q upd st expectedStatus sentinel timeout sl fuel
             (fun i => xs (S i))).
    - intros k. apply (Hok (S k)).
    - intros k. unfold poll_cond. apply andb_true_intro. split.
      + apply (Hgo k).
      + apply Z.leb_le. subst sl. lia. }
  assert (Hrun : forall fuel,
    run fuel [] = (Pending,
      snd (while_ fuel (poll_cond st expectedStatus sentinel timeout)
             (poll_body remote q upd sl) (init (xs O), 0) [EvRequest q]))).
  { intros fuel. rewrite run_start, (Hok O).
    specialize (Hp fuel).
    destruct (while_ fuel _ _ (init (xs O), 0) [EvRequest q]) as [[r|e|] w'];
      cbn [fst] in Hp; try discriminate. reflexivity. }
  split.
  - intros fuel. now rewrite Hrun.
  - intros fuel. rewrite Hrun. cbn [snd].
    destruct (while_poll_world remote q upd st expectedStatus sentinel timeout sl fuel
                (init (xs O)) 0 [EvRequest q]) as (n & Hw & _).
    rewrite Hw, slept_app, slept_iterations. subst sl. simpl. lia.
Qed.

(** When every fetch is answered and the sleep time is positive, the call
    returns the variables of its last fetch; if their status would keep the
    loop going, it is the timeout that ended it. *)
Lemma helper_settles (xs : nat -> X) :
  0 < sl ->
  (forall k, remote k X q = Ok (xs k)) ->
  exists n : nat,
    returns run (out (seen xs n)) (polling_trace q sl n)
    /\ (n <= Z.to_nat (timeout / sl) + 1)%nat
    /\ (continuing expectedStatus sentinel (st (seen xs n)) = true ->
        timeout < Z.of_nat n * sl).
Proof.
  intros Hsl Hok.
  set (f := fun k => poll_cond st expectedStatus sentinel timeout
                       (seen xs k, Z.of_nat k * sl)).
  destruct (first_false f (Z.to_nat (timeout / sl) + 1))
    as [Hall|(n & Hn & Hf & Hlt)].
  - exfalso. specialize (Hall _ (Nat.le_refl _)). unfold f, poll_cond in Hall.
    apply andb_prop in Hall. destruct Hall as [_ Ht]. apply Z.leb_le in Ht.
    pose proof (budget_exceeded Hsl). lia.
  - exists n. unfold f, poll_cond in Hf. apply andb_false_elim in Hf.
    split; [|split; [exact Hn|]].
    + apply helper_returns.
      * intros k _. apply Hok.
      * intros k Hk. specialize (Hlt k Hk). unfold f, poll_cond in Hlt.
        apply andb_prop in Hlt. destruct Hlt as [Hc Ht].
        split; [exact Hc|now apply Z.leb_le].
      * destruct Hf as [Hc|Ht]; [now left|right; now apply Z.leb_gt].
    + intros Hc. destruct Hf as [Hc'|Ht]; [congruence|now apply Z.leb_gt].
Qed.

(** The first status already stops the loop: the call returns at once,
    whatever the fuel. *)
Lemma helper_immediate (x : X) (fuel : nat) :
  remote O X q = Ok x ->
  continuing expectedStatus sentinel (st (init x)) = false ->
  run fuel [] = (Resolved (out (init x)), [EvRequest q; EvLog "debug"]).
Proof.
  intros Hok Hc. rewrite run_start, Hok, while_stop; [reflexivity|].
  unfold poll_cond. now rewrite Hc.
Qed.


End Helper.

(** ** The helpers are instances of [poll] *)

Lemma while_ext {V : Type} (c1 c2 : V -> bool) (b1 b2 : V -> Async V) :
  (forall s, c1 s = c2 s) ->
  (forall s w, b1 s w = b2 s w) ->
  forall fuel s w, while_ fuel c1 b1 s w = while_ fuel c2 b2 s w.
Proof.
  intros Hc Hb. induction fuel as [|fuel IH]; intros s w; simpl; rewrite Hc.
  - reflexivity.
  - destruct (c2 s); [|reflexivity]. unfold bind. rewrite Hb.
    destruct (b2 s w) as [[s'|e|] w']; [apply IH|reflexivity|reflexivity].
Qed.

Lemma bind_assoc {A B C : Type} (m : Async A) (f : A -> Async B) (g : B -> Async C)
    (w : World) :
  (x <- (y <- m ;; f y) ;; g x) w = (y <- m ;; x <- f y ;; g x) w.
Proof. unfold bind. destruct (m w) as [[a|e|] w']; reflexivity. Qed.

Lemma bind_ext {A B : Type} (m : Async A) (f g : A -> Async B) (w : World) :
  (forall a w', f a w' = g a w') -> (x <- m ;; f x) w = (x <- m ;; g x) w.
Proof. intros H. unfold bind. destruct (m w) as [[a|e|] w']; auto. Qed.

Lemma bind_cong {A B : Type} (m1 m2 : Async A) (f g : A -> Async B) (w : World) :
  (forall w', m1 w' = m2 w') ->
  (forall a w', f a w' = g a w') ->
  (x <- m1 ;; f x) w = (x <- m2 ;; g x) w.
Proof. intros Hm H. unfold bind. rewrite Hm. destruct (m2 w) as [[a|e|] w']; auto. Qed.

Lemma waitForSubscriptionStatus_poll (remote : Remote) (subscriptionId : Z)
    (expectedStatus : JsVal) (timeoutInSeconds sleepTimeInSeconds : option Z)
    (fuel : nat) (w : World) :
  waitForSubscriptionStatus remote subscriptionId expectedStatus
    timeoutInSeconds sleepTimeInSeconds fuel w
  = (r <- poll remote fuel (GetSubscription subscriptionId) (fun x => x) (fun _ x => x)
            SubscriptionResponse.status expectedStatus (JStr "error")
            (or_default timeoutInSeconds 1200) (or_default sleepTimeInSeconds 5) ;;
     log "debug" ;;
     ret (fst r)) w.
Proof.
  unfold waitForSubscriptionStatus, poll, getSubscription.
  rewrite bind_assoc. apply bind_ext. intros x w1.
  apply bind_ext. intros [r t] w2. reflexivity.
Qed.

Lemma waitForDatabaseStatus_poll (remote : Remote) (subscriptionId databaseId : Z)
    (expectedStatus : JsVal) (timeoutInSeconds sleepTimeInSeconds : option Z)
    (fuel : nat) (w : World) :
  waitForDatabaseStatus remote subscriptionId databaseId expectedStatus
    timeoutInSeconds sleepTimeInSeconds fuel w
  = (r <- poll remote fuel (GetDatabase subscriptionId databaseId)
            (fun x => x) (fun _ x => x)
            DatabaseResponse.status expectedStatus (JStr "error")
            (or_default timeoutInSeconds 300) (or_default sleepTimeInSeconds 5) ;;
     log "debug" ;;
     ret (fst r)) w.
Proof.
  unfold waitForDatabaseStatus, poll, getDatabase.
  rewrite bind_assoc. apply bind_ext. intros x w1.
  apply bind_ext. intros [r t] w2. reflexivity.
Qed.

Lemma waitForCloudAccountStatus_poll (remote : Remote) (cloudAccountId : Z)
    (expectedStatus : JsVal) (timeoutInSeconds sleepTimeInSeconds : option Z)
    (fuel : nat) (w : World) :
  waitForCloudAccountStatus remote cloudAccountId expectedStatus
    timeoutInSeconds sleepTimeInSeconds fuel w
  = (r <- poll remote fuel (GetCloudAccount cloudAccountId) (fun x => x) (fun _ x => x)
            CloudAccountResponse.status expectedStatus (JStr "error")
            (or_default timeoutInSeconds 300) (or_default sleepTimeInSeconds 5) ;;
     log "debug" ;;
     ret (fst r)) w.
Proof.
  unfold waitForCloudAccountStatus, poll, getCloudAccount.
  rewrite bind_assoc. apply bind_ext. intros x w1.
  apply bind_ext. intros [r t] w2. reflexivity.
Qed.

Lemma continuing_undefined (expectedStatus sentinel : JsVal) :
  continuing expectedStatus sentinel JUndefined = false.
Proof. unfold continuing. apply andb_false_r. Qed.

(** [waitForVpcPeeringStatus] is the same loop, then the read of [status]
    of line 357. *)
Lemma waitForVpcPeeringStatus_poll (remote : Remote) (subscriptionId vpcPeeringId : Z)
    (expectedStatus : JsVal) (timeoutInSeconds sleepTimeInSeconds : option Z)
    (fuel : nat) (w : World) :
  waitForVpcPeeringStatus remote subscriptionId vpcPeeringId expectedStatus
    timeoutInSeconds sleepTimeInSeconds fuel w
  = (r <- poll remote fuel (GetVpcPeerings subscriptionId)
            (vpc_init vpcPeeringId) (vpc_upd vpcPeeringId)
            snd expectedStatus (JStr "failed")
            (or_default timeoutInSeconds 300) (or_default sleepTimeInSeconds 5) ;;
     unbound "status") w.
Proof.
  unfold waitForVpcPeeringStatus, poll, getVpcPeerings.
  rewrite bind_assoc. apply bind_ext. intros l w1.
  unfold vpc_init, vpc_lookup.
  destruct (find (fun vpcPeering => SubscriptionVpcPeering.id vpcPeering =? vpcPeeringId) l)
    as [found|].
  - rewrite bind_assoc. apply bind_cong.
    + intros w2. apply while_ext.
      * intros [[vp status] t]. reflexivity.
      * intros [[vp status] t] w3. unfold poll_body.
        apply bind_ext. intros _ w4. apply bind_ext. intros _ w5.
        apply bind_ext. intros l' w6. unfold vpc_upd, vpc_lookup, ret.
        destruct (find _ l'); reflexivity.
    + intros [[vp status] t] w2. reflexivity.
  - rewrite while_stop.
    + reflexivity.
    + unfold poll_cond. cbn [snd]. now rewrite continuing_undefined.
Qed.

Lemma vpc_polling_poll (remote : Remote) (subscriptionId vpcPeeringId : Z)
    (expectedStatus : JsVal) (timeoutInSeconds sleepTimeInSeconds : option Z)
    (fuel : nat) (w : World) :
  vpc_polling remote subscriptionId vpcPeeringId expectedStatus
    timeoutInSeconds sleepTimeInSeconds fuel w
  = (r <- poll remote fuel (GetVpcPeerings subscriptionId)
            (vpc_init vpcPeeringId) (vpc_upd vpcPeeringId)
            snd expectedStatus (JStr "failed")
            (or_default timeoutInSeconds 300) (or_default sleepTimeInSeconds 5) ;;
     log "debug" ;;
     ret (fst (fst r))) w.
Proof. reflexivity. Qed.

(** ** [waitForVpcPeeringStatus] from its loop

    Where the loop of lines 343-356 is left, [vpc_polling] logs and returns;
    [waitForVpcPeeringStatus] raises instead, with the same requests and
    sleeps behind it.  A failed request and a loop that is still running
    are the same in both. *)

Section VpcPeering.

Variable remote : Remote.
Variables subscriptionId vpcPeeringId : Z.
Variable expectedStatus : JsVal.
Variables timeoutInSeconds sleepTimeInSeconds : option Z.

Local Abbreviation wait :=
  (waitForVpcPeeringStatus remote subscriptionId vpcPeeringId expectedStatus
     timeoutInSeconds sleepTimeInSeconds).
Local Abbreviation polling :=
  (vpc_polling remote subscriptionId vpcPeeringId expectedStatus
     timeoutInSeconds sleepTimeInSeconds).

Lemma vpc_wait_cases (fuel : nat) (w : World) :
  (exists a w', polling fuel w = (Resolved a, w' ++ [EvLog "debug"])
                /\ wait fuel w = (Rejected (ReferenceError "status"), w'))
  \/ (exists x w', polling fuel w = (Rejected x, w') /\ wait fuel w = (Rejected x, w'))
  \/ (exists w', polling fuel w = (Pending, w') /\ wait fuel w = (Pending, w')).
Proof.
  rewrite waitForVpcPeeringStatus_poll, vpc_polling_poll. unfold bind.
  destruct (poll remote fuel _ _ _ _ _ _ _ _ w) as [[r|x|] w'].
  - left. exists (fst (fst r)), w'. split; reflexivity.
  - right. left. exists x, w'. split; reflexivity.
  - right. right. exists w'. split; reflexivity.
Qed.

Lemma vpc_wait_raises (a : option SubscriptionVpcPeering.t) (fuel : nat) (w w' : World) :
  polling fuel w = (Resolved a, w') ->
  exists w1, w' = w1 ++ [EvLog "debug"]
             /\ wait fuel w = (Rejected (ReferenceError "status"), w1).
Proof.
  intros H. destruct (vpc_wait_cases fuel w)
    as [(a' & w1 & Hp & Hw)|[(x & w1 & Hp & Hw)|(w1 & Hp & Hw)]];
    rewrite Hp in H; [|discriminate H|discriminate H].
  injection H as _ <-. now exists w1.
Qed.


Lemma vpc_wait_pending (fuel : nat) (w : World) :
  fst (wait fuel w) = Pending <-> fst (polling fuel w) = Pending.
Proof.
  destruct (vpc_wait_cases fuel w)
    as [(a' & w1 & Hp & Hw)|[(x' & w1 & Hp & Hw)|(w1 & Hp & Hw)]];
    rewrite Hp, Hw; cbn [fst]; split; intros H; try discriminate H; reflexivity.
Qed.

(** The requests and the sleeps of the two are the same. *)
Lemma vpc_wait_counts (fuel : nat) (w : World) :
  fetches (snd (wait fuel w)) = fetches (snd (polling fuel w))
  /\ sleeps (snd (wait fuel w)) = sleeps (snd (polling fuel w))
  /\ slept (snd (wait fuel w)) = slept (snd (polling fuel w)).
Proof.
  destruct (vpc_wait_cases fuel w)
    as [(a' & w1 & Hp & Hw)|[(x' & w1 & Hp & Hw)|(w1 & Hp & Hw)]];
    rewrite Hp, Hw; cbn [snd]; [|now repeat split..].
  rewrite fetches_app, sleeps_app, slept_app.
  change (fetches [EvLog "debug"]) with 0%nat.
  change (sleeps [EvLog "debug"]) with 0%nat.
  change (slept [EvLog "debug"]) with 0.
  repeat split; lia.
Qed.

Lemma vpc_wait_only_fetches {X : Type} (q : Request X) (fuel : nat) (w : World) :
  only_fetches q (snd (polling fuel w)) -> only_fetches q (snd (wait fuel w)).
Proof.
  destruct (vpc_wait_cases fuel w)
    as [(a' & w1 & Hp & Hw)|[(x' & w1 & Hp & Hw)|(w1 & Hp & Hw)]];
    rewrite Hp, Hw; cbn [snd]; [|trivial..].
  unfold only_fetches. intros H. apply Forall_app in H. apply H.
Qed.

(** When the loop is left after [nfetches] requests, the helper raises. *)
Lemma vpc_wait_raises_with (a : option SubscriptionVpcPeering.t)
    (nfetches nsleeps : nat) (elapsed : Z) :
  returns_with polling a nfetches nsleeps elapsed ->
  exists w : World,
    (exists fuel0 : nat, forall fuel : nat,
        (fuel0 <= fuel)%nat -> wait fuel [] = (Rejected (ReferenceError "status"), w))
    /\ fetches w = nfetches /\ sleeps w = nsleeps /\ slept w = elapsed.
Proof.
  intros (w & (fuel0 & Hret) & Hf & Hs & Ht).
  destruct (vpc_wait_raises a fuel0 [] w (Hret fuel0 (Nat.le_refl _))) as (w1 & -> & _).
  exists w1. split.
  - exists fuel0. intros fuel Hfuel.
    destruct (vpc_wait_raises a fuel [] _ (Hret fuel Hfuel)) as (w2 & E & Hw).
    apply app_inj_tail in E. destruct E as [<- _]. exact Hw.
  - rewrite fetches_app in Hf. rewrite sleeps_app in Hs. rewrite slept_app in Ht.
    change (fetches [EvLog "debug"]) with 0%nat in Hf.
    change (sleeps [EvLog "debug"]) with 0%nat in Hs.
    change (slept [EvLog "debug"]) with 0 in Ht.
    repeat split; lia.
Qed.

Lemma vpc_wait_rejects_with (a : option SubscriptionVpcPeering.t)
    (nfetches nsleeps : nat) (elapsed : Z) :
  returns_with polling a nfetches nsleeps elapsed ->
  rejects_with wait (ReferenceError "status") nfetches nsleeps.
Proof.
  intros H. destruct (vpc_wait_raises_with a _ _ _ H) as (w & Hrun & Hf & Hs & _).
  exists w. repeat split; assumption.
Qed.

Lemma vpc_wait_stops_after (a : option SubscriptionVpcPeering.t)
    (nfetches nsleeps : nat) (elapsed : Z) :
  returns_with polling a nfetches nsleeps elapsed ->
  stops_after wait nfetches nsleeps elapsed.
Proof.
  intros H. destruct (vpc_wait_raises_with a _ _ _ H) as (w & Hrun & Hf & Hs & Ht).
  exists (Rejected (ReferenceError "status")), w.
  split; [discriminate|]. repeat split; assumption.
Qed.

Lemma vpc_wait_settled_within (nfetches : Z) (fuel : nat) :
  settled_within nfetches (polling fuel []) -> settled_within nfetches (wait fuel []).
Proof.
  intros [Hp Hn]. split.
  - intros H. apply Hp. now apply vpc_wait_pending.
  - destruct (vpc_wait_counts fuel []) as (-> & _). exact Hn.
Qed.

Lemma vpc_wait_diverges : diverges polling -> diverges wait.
Proof. intros H fuel. apply vpc_wait_pending. apply H. Qed.

Lemma vpc_wait_stuck : stuck polling -> stuck wait.
Proof.
  intros [Hd Hs]. split; [now apply vpc_wait_diverges|].
  intros fuel. destruct (vpc_wait_counts fuel []) as (_ & _ & ->). apply Hs.
Qed.


End VpcPeering.

(** ** Statuses that stop a loop *)

Lemma strict_eq_refl (a : JsVal) : strict_eq a a = true.
Proof.
  destruct a; simpl;
    [reflexivity|reflexivity|apply Bool.eqb_reflx|apply Z.eqb_refl|apply String.eqb_refl].
Qed.


Lemma continuing_expected (expectedStatus sentinel : JsVal) :
  continuing expectedStatus sentinel expectedStatus = false.
Proof. unfold continuing, strict_neq. now rewrite strict_eq_refl. Qed.



(** ** Polling until the timeout *)

(** Statuses that keep the loop going make it run until the time passed
    exceeds the timeout: [timeout / sl + 1] iterations. *)
Lemma helper_times_out {A X V : Type} (remote : Remote) (q : Request X)
    (init : X -> V) (upd : V -> X -> V) (st : V -> JsVal) (out : V -> A)
    (expectedStatus sentinel : JsVal) (timeout sl : Z) (run : nat -> Async A)
    (run_poll : forall fuel w,
       run fuel w
       = (r <- poll remote fuel q init upd st expectedStatus sentinel timeout sl ;;
          log "debug" ;;
          ret (out (fst r))) w)
    (xs : nat -> X) :
  0 <= timeout ->
  0 < sl ->
  (forall k, remote k X q = Ok (xs k)) ->
  (forall k, continuing expectedStatus sentinel (st (observed init upd xs k)) = true) ->
  returns_with run (out (observed init upd xs (Z.to_nat (timeout / sl) + 1)))
    (Z.to_nat (timeout / sl) + 2) (Z.to_nat (timeout / sl) + 1)
    ((timeout / sl + 1) * sl).
Proof.
  intros Hto Hsl Hok Hgo.
  assert (Hdiv : 0 <= timeout / sl) by (apply Z.div_pos; lia).
  replace (Z.to_nat (timeout / sl) + 2)%nat with (S (Z.to_nat (timeout / sl) + 1)) by lia.
  replace ((timeout / sl + 1) * sl)
    with (Z.of_nat (Z.to_nat (timeout / sl) + 1) * sl) by (f_equal; lia).
  apply (returns_polling_trace _ _ q).
  apply (helper_returns remote q init upd st out expectedStatus sentinel timeout sl
           run run_poll).
  - intros k _. apply Hok.
  - intros k Hk. split; [apply Hgo|].
    pose proof (Z.mul_div_le timeout sl Hsl).
    assert (Z.of_nat k <= timeout / sl) by lia. nia.
  - right. now apply budget_exceeded.
Qed.

(** ** A helper started after other effects *)

Lemma only_fetches_iterations {X : Type} (q : Request X) (sl : Z) (n : nat) :
  only_fetches q (iterations q sl n).
Proof.
  induction n as [|n IH]; [constructor|].
  simpl. repeat constructor; try discriminate. exact IH.
Qed.

(** From any world [w], a helper built on [poll] adds events whose requests
    are all its own; if it resolves, the loop's condition fails on the
    variables it ends with, the time passed being the time slept. *)
Lemma helper_world {A X V : Type} (remote : Remote) (q : Request X)
    (init : X -> V) (upd : V -> X -> V) (st : V -> JsVal) (out : V -> A)
    (expectedStatus sentinel : JsVal) (timeout sl : Z) (run : nat -> Async A)
    (run_poll : forall fuel w,
       run fuel w
       = (r <- poll remote fuel q init upd st expectedStatus sentinel timeout sl ;;
          log "debug" ;;
          ret (out (fst r))) w)
    (fuel : nat) (w : World) :
  exists w' : World,
    snd (run fuel w) = w ++ w'
    /\ only_fetches q w'
    /\ forall a, fst (run fuel w) = Resolved a ->
         exists s, a = out s
           /\ (continuing expectedStatus sentinel (st s) = false \/ timeout < slept w').
Proof.
  rewrite (run_from remote q init upd st out expectedStatus sentinel timeout sl
             run run_poll fuel w).
  destruct (remote (fetches w) X q) as [x|e].
  - destruct (while_poll_world remote q upd st expectedStatus sentinel timeout sl fuel
                (init x) 0 (w ++ [EvRequest q])) as (n & Hw & _ & Hres).
    destruct (while_ fuel _ _ (init x, 0) (w ++ [EvRequest q])) as [[[s t]|e|] w1];
      cbn [fst snd] in Hw, Hres; subst w1.
    + exists ([EvRequest q] ++ iterations q sl n ++ [EvLog "debug"]).
      cbn [fst snd].
      split; [now rewrite <- !app_assoc|]. split.
      * apply Forall_app. split; [repeat constructor|].
        apply Forall_app. split; [apply only_fetches_iterations|].
        repeat constructor. discriminate.
      * intros a E. injection E as <-. exists s. split; [reflexivity|].
        destruct (Hres s t eq_refl) as [Hc Ht]. unfold poll_cond in Hc.
        apply andb_false_elim in Hc. destruct Hc as [Hc|Hc]; [now left|right].
        apply Z.leb_gt in Hc.
        rewrite !slept_app, slept_iterations.
        change (slept [EvRequest q]) with 0. change (slept [EvLog "debug"]) with 0.
        lia.
    + exists ([EvRequest q] ++ iterations q sl n). cbn [fst snd].
      split; [now rewrite <- !app_assoc|]. split.
      * apply Forall_app. split; [repeat constructor|apply only_fetches_iterations].
      * discriminate.
    + exists ([EvRequest q] ++ iterations q sl n). cbn [fst snd].
      split; [now rewrite <- !app_assoc|]. split.
      * apply Forall_app. split; [repeat constructor|apply only_fetches_iterations].
      * discriminate.
  - exists [EvRequest q]. cbn [fst snd]. split; [reflexivity|]. split.
    + repeat constructor.
    + discriminate.
Qed.

(** ** The claims *)

(** C1 (as the code has it).  When every fetched status keeps the loop going
    (it is never [expectedStatus], never the error sentinel, always defined),
    a wait helper whose loop is in [src/api.ts], called with
    [0 <= timeoutInSeconds], [0 < sleepTimeInSeconds] and durations on which
    the sums are exact, performs
    [timeoutInSeconds / sleepTimeInSeconds + 2] fetches, one more than the
    claim counts: the test [timePassedInSeconds <= timeoutInSeconds] still
    passes at the tick equal to the timeout, so one more sleep and fetch
    follow it.  [waitForSubscriptionStatus], [waitForDatabaseStatus] and
    [waitForCloudAccountStatus] then return the resource of the last fetch;
    of [waitForVpcPeeringStatus] the theorem says that it ends there, not
    how. *)
Theorem C1_fetches_until_timeout :
  forall (remote : Remote) (expectedStatus : JsVal)
         (timeoutInSeconds sleepTimeInSeconds : Z),
    0 <= timeoutInSeconds ->
    0 < sleepTimeInSeconds ->
    exact_durations timeoutInSeconds sleepTimeInSeconds ->
    let last := (Z.to_nat (timeoutInSeconds / sleepTimeInSeconds) + 1)%nat in
    let nfetches := (Z.to_nat (timeoutInSeconds / sleepTimeInSeconds) + 2)%nat in
    let elapsed := (timeoutInSeconds / sleepTimeInSeconds + 1) * sleepTimeInSeconds in
    (forall subscriptionId rs,
        (forall k, remote k _ (GetSubscription subscriptionId) = Ok (rs k)) ->
        (forall k, continuing expectedStatus (JStr "error")
                     (SubscriptionResponse.status (rs k)) = true) ->
        returns_with
          (waitForSubscriptionStatus remote subscriptionId expectedStatus
             (Some timeoutInSeconds) (Some sleepTimeInSeconds))
          (rs last) nfetches last elapsed)
    /\ (forall subscriptionId vpcPeeringId ls,
        (forall k, remote k _ (GetVpcPeerings subscriptionId) = Ok (ls k)) ->
        (forall k, continuing expectedStatus (JStr "failed")
                     (snd (vpc_state vpcPeeringId ls k)) = true) ->
        stops_after
          (waitForVpcPeeringStatus remote subscriptionId vpcPeeringId expectedStatus
             (Some timeoutInSeconds) (Some sleepTimeInSeconds))
          nfetches last elapsed)
    /\ (forall subscriptionId databaseId rs,
        (forall k, remote k _ (GetDatabase subscriptionId databaseId) = Ok (rs k)) ->
        (forall k, continuing expectedStatus (JStr "error")
                     (DatabaseResponse.status (rs k)) = true) ->
        returns_with
          (waitForDatabaseStatus remote subscriptionId databaseId expectedStatus
             (Some timeoutInSeconds) (Some sleepTimeInSeconds))
          (rs last) nfetches last elapsed)
    /\ (forall cloudAccountId rs,
        (forall k, remote k _ (GetCloudAccount cloudAccountId) = Ok (rs k)) ->
        (forall k, continuing expectedStatus (JStr "error")
                     (CloudAccountResponse.status (rs k)) = true) ->
        returns_with
          (waitForCloudAccountStatus remote cloudAccountId expectedStatus
             (Some timeoutInSeconds) (Some sleepTimeInSeconds))
          (rs last) nfetches last elapsed).
Proof.
  intros remote expectedStatus timeoutInSeconds sleepTimeInSeconds Hto Hsl _
         last nfetches elapsed.
  split; [|split; [|split]].
  - intros subscriptionId rs Hok Hgo. rewrite <- (observed_last rs last).
    apply (helper_times_out remote _ (fun x => x) (fun _ x => x) _ (fun x => x)
             _ _ _ _ _ (waitForSubscriptionStatus_poll remote subscriptionId
                          expectedStatus (Some timeoutInSeconds) (Some sleepTimeInSeconds))
             rs Hto Hsl Hok).
    intros k. rewrite observed_last. apply Hgo.
  - intros subscriptionId vpcPeeringId ls Hok Hgo.
    apply (vpc_wait_stops_after remote subscriptionId vpcPeeringId expectedStatus
             (Some timeoutInSeconds) (Some sleepTimeInSeconds)
             (fst (vpc_state vpcPeeringId ls last))).
    apply (helper_times_out remote _ _ _ _ (fun s => fst s)
             _ _ _ _ _ (vpc_polling_poll remote subscriptionId vpcPeeringId
                          expectedStatus (Some timeoutInSeconds) (Some sleepTimeInSeconds))
             ls Hto Hsl Hok Hgo).
  - intros subscriptionId databaseId rs Hok Hgo. rewrite <- (observed_last rs last).
    apply (helper_times_out remote _ (fun x => x) (fun _ x => x) _ (fun x => x)
             _ _ _ _ _ (waitForDatabaseStatus_poll remote subscriptionId databaseId
                          expectedStatus (Some timeoutInSeconds) (Some sleepTimeInSeconds))
             rs Hto Hsl Hok).
    intros k. rewrite observed_last. apply Hgo.
  - intros cloudAccountId rs Hok Hgo. rewrite <- (observed_last rs last).
    apply (helper_times_out remote _ (fun x => x) (fun _ x => x) _ (fun x => x)
             _ _ _ _ _ (waitForCloudAccountStatus_poll remote cloudAccountId
                          expectedStatus (Some timeoutInSeconds) (Some sleepTimeInSeconds))
             rs Hto Hsl Hok).
    intros k. rewrite observed_last. apply Hgo.
Qed.

Lemma C1_fetches_until_timeout_witness :
  let remote := status_feed (fun _ => JStr "pending") in
  0 <= 10 /\ 0 < 5 /\ exact_durations 10 5
  /\ returns_with
       (waitForSubscriptionStatus remote 7 (JStr "active") (Some 10) (Some 5))
       (SubscriptionResponse.mk 7 (JStr "pending") []) 4 3 15
  /\ stops_after
       (waitForVpcPeeringStatus remote 7 1 (JStr "active") (Some 10) (Some 5))
       4 3 15
  /\ returns_with
       (waitForDatabaseStatus remote 7 2 (JStr "active") (Some 10) (Some 5))
       (DatabaseResponse.mk 2 (JStr "pending") []) 4 3 15
  /\ returns_with
       (waitForCloudAccountStatus remote 3 (JStr "active") (Some 10) (Some 5))
       (CloudAccountResponse.mk 3 (JStr "pending") []) 4 3 15.
Proof.
  intros remote.
  assert (Hto : 0 <= 10) by lia. assert (Hsl : 0 < 5) by lia.
  assert (Hex : exact_durations 10 5) by (unfold exact_durations, max_exact; lia).
  destruct (C1_fetches_until_timeout remote (JStr "active") 10 5 Hto Hsl Hex)
    as (Hsub & Hvpc & Hdb & Hca).
  split; [exact Hto|]. split; [exact Hsl|]. split; [exact Hex|].
  split; [|split; [|split]].
  - apply (Hsub 7 (fun _ => SubscriptionResponse.mk 7 (JStr "pending") []));
      intros k; reflexivity.
  - apply (Hvpc 7 1 (fun _ => [SubscriptionVpcPeering.mk 1 (JStr "pending") []])).
    + intros k. reflexivity.
    + intros k.
      rewrite (vpc_state_found 1
                 (fun _ => [SubscriptionVpcPeering.mk 1 (JStr "pending") []]) k
                 (SubscriptionVpcPeering.mk 1 (JStr "pending") []) eq_refl).
      reflexivity.
  - apply (Hdb 7 2 (fun _ => DatabaseResponse.mk 2 (JStr "pending") []));
      intros k; reflexivity.
  - apply (Hca 3 (fun _ => CloudAccountResponse.mk 3 (JStr "pending") []));
      intros k; reflexivity.
Defined.

(** C1 as stated fails.  With [timeoutInSeconds = 10],
    [sleepTimeInSeconds = 5] and a subscription that stays [pending],
    [waitForSubscriptionStatus] fetches at 0, 5, 10 and 15 seconds: it returns
    after 4 fetches, and no run of it returns after
    [floor (10 / 5) + 1 = 3]. *)
Lemma C1_counterexample :
  let remote := status_feed (fun _ => JStr "pending") in
  let run := waitForSubscriptionStatus remote 7 (JStr "active") (Some 10) (Some 5) in
  (forall k, exists r,
      remote k _ (GetSubscription 7) = Ok r
      /\ continuing (JStr "active") (JStr "error") (SubscriptionResponse.status r) = true)
  /\ returns_with run (SubscriptionResponse.mk 7 (JStr "pending") []) 4 3 15
  /\ ~ (exists a w, returns run a w /\ fetches w = (Z.to_nat (10 / 5) + 1)%nat).
Proof.
  intros remote run.
  assert (H : returns_with run (SubscriptionResponse.mk 7 (JStr "pending") []) 4 3 15).
  { assert (Hto : 0 <= 10) by lia. assert (Hsl : 0 < 5) by lia.
    apply (helper_times_out remote _ (fun x => x) (fun _ x => x) _ (fun x => x)
             _ _ _ _ _ (waitForSubscriptionStatus_poll remote 7
                          (JStr "active") (Some 10) (Some 5))
             (fun _ => SubscriptionResponse.mk 7 (JStr "pending") []) Hto Hsl);
      intros k; rewrite ?observed_last; reflexivity. }
  split; [|split; [exact H|]].
  - intros k. exists (SubscriptionResponse.mk 7 (JStr "pending") []).
    split; reflexivity.
  - intros (a & w & Hret & Hn). destruct H as (w' & Hret' & Hn' & _).
    destruct (returns_unique _ _ _ _ _ Hret Hret') as [_ ->].
    rewrite Hn' in Hn. discriminate Hn.
Qed.

(** C2 (as the code has it).  In [waitForVpcPeeringStatus] a lookup that
    finds nothing does not end the loop: [status] keeps its previous value.
    When the peering is found at the first fetch with a status that keeps
    the loop going and is missing from every later list, the helper (with
    [0 <= timeoutInSeconds], [0 < sleepTimeInSeconds] and durations on
    which the sums are exact) polls until the time passed exceeds the
    timeout, [timeoutInSeconds / sleepTimeInSeconds + 2] fetches in all. *)
Theorem C2_vanished_peering_keeps_polling :
  forall (remote : Remote) (subscriptionId vpcPeeringId : Z) (expectedStatus : JsVal)
         (timeoutInSeconds sleepTimeInSeconds : Z)
         (ls : nat -> list SubscriptionVpcPeering.t) (found : SubscriptionVpcPeering.t),
    0 <= timeoutInSeconds ->
    0 < sleepTimeInSeconds ->
    exact_durations timeoutInSeconds sleepTimeInSeconds ->
    (forall k, remote k _ (GetVpcPeerings subscriptionId) = Ok (ls k)) ->
    vpc_lookup vpcPeeringId (ls O) = Some found ->
    continuing expectedStatus (JStr "failed") (SubscriptionVpcPeering.status found) = true ->
    (forall k, (1 <= k)%nat -> vpc_lookup vpcPeeringId (ls k) = None) ->
    stops_after
      (waitForVpcPeeringStatus remote subscriptionId vpcPeeringId expectedStatus
         (Some timeoutInSeconds) (Some sleepTimeInSeconds))
      (Z.to_nat (timeoutInSeconds / sleepTimeInSeconds) + 2)
      (Z.to_nat (timeoutInSeconds / sleepTimeInSeconds) + 1)
      ((timeoutInSeconds / sleepTimeInSeconds + 1) * sleepTimeInSeconds).
Proof.
  intros remote subscriptionId vpcPeeringId expectedStatus timeoutInSeconds
         sleepTimeInSeconds ls found Hto Hsl _ Hok Hfound Hgo Hgone.
  assert (Hst : forall k,
    snd (vpc_state vpcPeeringId ls k) = SubscriptionVpcPeering.status found).
  { induction k as [|k IH].
    - now rewrite (vpc_state_found _ _ _ _ Hfound).
    - rewrite (vpc_state_missing _ _ _ (Hgone (S k) ltac:(lia))). exact IH. }
  apply (vpc_wait_stops_after remote subscriptionId vpcPeeringId expectedStatus
           (Some timeoutInSeconds) (Some sleepTimeInSeconds)
           (fst (vpc_state vpcPeeringId ls
                   (Z.to_nat (timeoutInSeconds / sleepTimeInSeconds) + 1)))).
  apply (helper_times_out remote _ _ _ _ (fun s => fst s)
           _ _ _ _ _ (vpc_polling_poll remote subscriptionId vpcPeeringId
                        expectedStatus (Some timeoutInSeconds) (Some sleepTimeInSeconds))
           ls Hto Hsl Hok).
  intros k. fold (vpc_state vpcPeeringId ls k). now rewrite Hst.
Qed.

Lemma C2_vanished_peering_keeps_polling_witness :
  let pending := SubscriptionVpcPeering.mk 1 (JStr "pending") [] in
  let ls := fun k : nat => match k with O => [pending] | _ => [] end in
  0 <= 10 /\ 0 < 5 /\ exact_durations 10 5
  /\ vpc_lookup 1 (ls O) = Some pending
  /\ stops_after
       (waitForVpcPeeringStatus (vpc_feed ls) 7 1 (JStr "active") (Some 10) (Some 5))
       4 3 15.
Proof.
  intros pending ls.
  assert (Hto : 0 <= 10) by lia. assert (Hsl : 0 < 5) by lia.
  assert (Hex : exact_durations 10 5) by (unfold exact_durations, max_exact; lia).
  split; [exact Hto|]. split; [exact Hsl|]. split; [exact Hex|]. split; [reflexivity|].
  apply (C2_vanished_peering_keeps_polling (vpc_feed ls) 7 1 (JStr "active") 10 5
           ls pending Hto Hsl Hex).
  - intros k. reflexivity.
  - reflexivity.
  - reflexivity.
  - intros k Hk. destruct k as [|k]; [lia|reflexivity].
Defined.

(** C2 as stated fails.  With [timeoutInSeconds = 10] and
    [sleepTimeInSeconds = 5], the peering 1 is [pending] at the first fetch
    and missing from the second on, 5 seconds into the 10.  The loop does not
    exit there: the helper makes 4 fetches, not 2, the last one 15 seconds
    in, and no run of it ends after 2. *)
Lemma C2_counterexample :
  let pending := SubscriptionVpcPeering.mk 1 (JStr "pending") [] in
  let gone := fun k : nat => match k with O => [pending] | _ => [] end in
  let run := waitForVpcPeeringStatus (vpc_feed gone) 7 1 (JStr "active") (Some 10) (Some 5) in
  vpc_lookup 1 (gone 0%nat) = Some pending
  /\ vpc_lookup 1 (gone 1%nat) = None
  /\ snd (run 3%nat [])
     = [EvRequest (GetVpcPeerings 7); EvLog "debug"; EvSleep 5;
        EvRequest (GetVpcPeerings 7); EvLog "debug"; EvSleep 5;
        EvRequest (GetVpcPeerings 7); EvLog "debug"; EvSleep 5;
        EvRequest (GetVpcPeerings 7)]
  /\ stops_after run 4 3 15
  /\ ~ (exists nsleeps elapsed, stops_after run 2 nsleeps elapsed).
Proof.
  intros pending gone run.
  assert (Hto : 0 <= 10) by lia. assert (Hsl : 0 < 5) by lia.
  assert (Hgone : stops_after run 4 3 15).
  { apply (vpc_wait_stops_after (vpc_feed gone) 7 1 (JStr "active") (Some 10) (Some 5)
             (fst (vpc_state 1 gone 3))).
    apply (helper_times_out (vpc_feed gone) _ _ _ _ (fun s => fst s)
             _ _ _ _ _ (vpc_polling_poll (vpc_feed gone) 7 1
                          (JStr "active") (Some 10) (Some 5))
             gone Hto Hsl).
    - intros k. reflexivity.
    - intros k. fold (vpc_state 1 gone k).
      induction k as [|k IH].
      + reflexivity.
      + now rewrite (vpc_state_missing 1 gone k eq_refl). }
  split; [reflexivity|]. split; [reflexivity|]. split; [reflexivity|].
  split; [exact Hgone|].
  intros (nsleeps & elapsed & o & w & _ & (fuel0 & Hrun) & Hn & _).
  destruct Hgone as (o' & w' & _ & (fuel1 & Hrun') & Hn' & _).
  pose proof (Hrun (Nat.max fuel0 fuel1) (Nat.le_max_l _ _)) as E.
  rewrite (Hrun' (Nat.max fuel0 fuel1) (Nat.le_max_r _ _)) in E.
  injection E as _ <-. rewrite Hn' in Hn. discriminate Hn.
Qed.



(** C4.  A wait helper whose first fetch already shows [expectedStatus]
    makes that one fetch and no sleep, for any [timeoutInSeconds] and
    [sleepTimeInSeconds] (given or left to their defaults) and whatever the
    fuel.  [waitForSubscriptionStatus], [waitForDatabaseStatus] and
    [waitForCloudAccountStatus] return the fetched resource;
    [waitForVpcPeeringStatus] does not: the read of [status] at line 357
    rejects the call. *)
Theorem C4_expected_at_first_fetch :
  forall (remote : Remote) (expectedStatus : JsVal)
         (timeoutInSeconds sleepTimeInSeconds : option Z) (fuel : nat),
    (forall subscriptionId r,
        remote O _ (GetSubscription subscriptionId) = Ok r ->
        SubscriptionResponse.status r = expectedStatus ->
        waitForSubscriptionStatus remote subscriptionId expectedStatus
          timeoutInSeconds sleepTimeInSeconds fuel []
        = (Resolved r, [EvRequest (GetSubscription subscriptionId); EvLog "debug"]))
    /\ (forall subscriptionId vpcPeeringId vpcPeerings found,
        remote O _ (GetVpcPeerings subscriptionId) = Ok vpcPeerings ->
        vpc_lookup vpcPeeringId vpcPeerings = Some found ->
        SubscriptionVpcPeering.status found = expectedStatus ->
        waitForVpcPeeringStatus remote subscriptionId vpcPeeringId expectedStatus
          timeoutInSeconds sleepTimeInSeconds fuel []
        = (Rejected (ReferenceError "status"),
           [EvRequest (GetVpcPeerings subscriptionId)]))
    /\ (forall subscriptionId databaseId r,
        remote O _ (GetDatabase subscriptionId databaseId) = Ok r ->
        DatabaseResponse.status r = expectedStatus ->
        waitForDatabaseStatus remote subscriptionId databaseId expectedStatus
          timeoutInSeconds sleepTimeInSeconds fuel []
        = (Resolved r, [EvRequest (GetDatabase subscriptionId databaseId); EvLog "debug"]))
    /\ (forall cloudAccountId r,
        remote O _ (GetCloudAccount cloudAccountId) = Ok r ->
        CloudAccountResponse.status r = expectedStatus ->
        waitForCloudAccountStatus remote cloudAccountId expectedStatus
          timeoutInSeconds sleepTimeInSeconds fuel []
        = (Resolved r, [EvRequest (GetCloudAccount cloudAccountId); EvLog "debug"])).
Proof.
  intros remote expectedStatus timeoutInSeconds sleepTimeInSeconds fuel.
  split; [|split; [|split]].
  - intros subscriptionId r Hok Hst.
    apply (helper_immediate remote _ (fun x => x) (fun _ x => x) _ (fun x => x)
             _ _ _ _ _ (waitForSubscriptionStatus_poll remote subscriptionId
                          expectedStatus timeoutInSeconds sleepTimeInSeconds) r fuel Hok).
    rewrite Hst. apply continuing_expected.
  - intros subscriptionId vpcPeeringId vpcPeerings found Hok Hfind Hst.
    destruct (vpc_wait_raises remote subscriptionId vpcPeeringId expectedStatus
                timeoutInSeconds sleepTimeInSeconds
                (fst (vpc_init vpcPeeringId vpcPeerings)) fuel []
                [EvRequest (GetVpcPeerings subscriptionId); EvLog "debug"])
      as (w1 & E & Hrun).
    + apply (helper_immediate remote _ _ _ _ (fun s => fst s)
               _ _ _ _ _ (vpc_polling_poll remote subscriptionId vpcPeeringId
                            expectedStatus timeoutInSeconds sleepTimeInSeconds)
               vpcPeerings fuel Hok).
      unfold vpc_init. rewrite Hfind. cbn [snd]. rewrite Hst.
      apply continuing_expected.
    + change [EvRequest (GetVpcPeerings subscriptionId); EvLog "debug"]
        with ([EvRequest (GetVpcPeerings subscriptionId)] ++ [EvLog "debug"]) in E.
      apply app_inj_tail in E. destruct E as [<- _]. exact Hrun.
  - intros subscriptionId databaseId r Hok Hst.
    apply (helper_immediate remote _ (fun x => x) (fun _ x => x) _ (fun x => x)
             _ _ _ _ _ (waitForDatabaseStatus_poll remote subscriptionId databaseId
                          expectedStatus timeoutInSeconds sleepTimeInSeconds) r fuel Hok).
    rewrite Hst. apply continuing_expected.
  - intros cloudAccountId r Hok Hst.
    apply (helper_immediate remote _ (fun x => x) (fun _ x => x) _ (fun x => x)
             _ _ _ _ _ (waitForCloudAccountStatus_poll remote cloudAccountId
                          expectedStatus timeoutInSeconds sleepTimeInSeconds) r fuel Hok).
    rewrite Hst. apply continuing_expected.
Qed.

Lemma C4_expected_at_first_fetch_witness :
  let remote := status_feed (fun _ => JStr "active") in
  waitForSubscriptionStatus remote 7 (JStr "active") None None 0 []
  = (Resolved (SubscriptionResponse.mk 7 (JStr "active") []),
     [EvRequest (GetSubscription 7); EvLog "debug"])
  /\ waitForVpcPeeringStatus remote 7 1 (JStr "active") None None 0 []
     = (Rejected (ReferenceError "status"), [EvRequest (GetVpcPeerings 7)])
  /\ waitForDatabaseStatus remote 7 2 (JStr "active") None None 0 []
     = (Resolved (DatabaseResponse.mk 2 (JStr "active") []),
        [EvRequest (GetDatabase 7 2); EvLog "debug"])
  /\ waitForCloudAccountStatus remote 3 (JStr "active") None None 0 []
     = (Resolved (CloudAccountResponse.mk 3 (JStr "active") []),
        [EvRequest (GetCloudAccount 3); EvLog "debug"]).
Proof.
  intros remote.
  destruct (C4_expected_at_first_fetch remote (JStr "active") None None 0)
    as (Hsub & Hvpc & Hdb & Hca).
  split; [|split; [|split]].
  - apply Hsub; reflexivity.
  - apply (Hvpc 7 1 [SubscriptionVpcPeering.mk 1 (JStr "active") []]
             (SubscriptionVpcPeering.mk 1 (JStr "active") [])); reflexivity.
  - apply Hdb; reflexivity.
  - apply Hca; reflexivity.
Defined.

(** C5.  With [timeoutInSeconds = 10], [sleepTimeInSeconds = 5] and
    [expectedStatus = 'active'], when the first three fetches show
    [creating], [creating], [active], [waitForSubscriptionStatus] returns the
    resource of the third fetch: 3 fetches, 2 sleeps, 10 seconds passed.  The
    fetch at the tick equal to the timeout is made because the test before
    it, [5 <= 10], passes.  [waitForDatabaseStatus] and
    [waitForCloudAccountStatus] do the same. *)
Theorem C5_active_at_the_timeout_tick :
  forall remote : Remote,
    (forall subscriptionId r0 r1 r2,
        remote 0%nat _ (GetSubscription subscriptionId) = Ok r0 ->
        remote 1%nat _ (GetSubscription subscriptionId) = Ok r1 ->
        remote 2%nat _ (GetSubscription subscriptionId) = Ok r2 ->
        SubscriptionResponse.status r0 = JStr "creating" ->
        SubscriptionResponse.status r1 = JStr "creating" ->
        SubscriptionResponse.status r2 = JStr "active" ->
        returns_with
          (waitForSubscriptionStatus remote subscriptionId (JStr "active")
             (Some 10) (Some 5))
          r2 3 2 10)
    /\ (forall subscriptionId databaseId r0 r1 r2,
        remote 0%nat _ (GetDatabase subscriptionId databaseId) = Ok r0 ->
        remote 1%nat _ (GetDatabase subscriptionId databaseId) = Ok r1 ->
        remote 2%nat _ (GetDatabase subscriptionId databaseId) = Ok r2 ->
        DatabaseResponse.status r0 = JStr "creating" ->
        DatabaseResponse.status r1 = JStr "creating" ->
        DatabaseResponse.status r2 = JStr "active" ->
        returns_with
          (waitForDatabaseStatus remote subscriptionId databaseId (JStr "active")
             (Some 10) (Some 5))
          r2 3 2 10)
    /\ (forall cloudAccountId r0 r1 r2,
        remote 0%nat _ (GetCloudAccount cloudAccountId) = Ok r0 ->
        remote 1%nat _ (GetCloudAccount cloudAccountId) = Ok r1 ->
        remote 2%nat _ (GetCloudAccount cloudAccountId) = Ok r2 ->
        CloudAccountResponse.status r0 = JStr "creating" ->
        CloudAccountResponse.status r1 = JStr "creating" ->
        CloudAccountResponse.status r2 = JStr "active" ->
        returns_with
          (waitForCloudAccountStatus remote cloudAccountId (JStr "active")
             (Some 10) (Some 5))
          r2 3 2 10).
Proof.
  intros remote.
  split; [|split].
  - intros subscriptionId r0 r1 r2 H0 H1 H2 S0 S1 S2.
    set (rs := fun k => match k with O => r0 | S O => r1 | _ => r2 end).
    apply (returns_polling_trace _ _ (GetSubscription subscriptionId) 5 2).
    change r2 with (observed (fun x => x) (fun _ x => x) rs 2).
    apply (helper_returns remote _ (fun x => x) (fun _ x => x) _ (fun x => x)
             _ _ _ _ _ (waitForSubscriptionStatus_poll remote subscriptionId
                          (JStr "active") (Some 10) (Some 5)) 2 rs).
    + intros k Hk. destruct k as [|[|[|k]]]; [exact H0|exact H1|exact H2|lia].
    + intros k Hk. rewrite observed_last.
      destruct k as [|[|k]]; [simpl; rewrite S0|simpl; rewrite S1|lia];
        (split; [reflexivity|unfold or_default; lia]).
    + left. rewrite observed_last. simpl. rewrite S2. reflexivity.
  - intros subscriptionId databaseId r0 r1 r2 H0 H1 H2 S0 S1 S2.
    set (rs := fun k => match k with O => r0 | S O => r1 | _ => r2 end).
    apply (returns_polling_trace _ _ (GetDatabase subscriptionId databaseId) 5 2).
    change r2 with (observed (fun x => x) (fun _ x => x) rs 2).
    apply (helper_returns remote _ (fun x => x) (fun _ x => x) _ (fun x => x)
             _ _ _ _ _ (waitForDatabaseStatus_poll remote subscriptionId databaseId
                          (JStr "active") (Some 10) (Some 5)) 2 rs).
    + intros k Hk. destruct k as [|[|[|k]]]; [exact H0|exact H1|exact H2|lia].
    + intros k Hk. rewrite observed_last.
      destruct k as [|[|k]]; [simpl; rewrite S0|simpl; rewrite S1|lia];
        (split; [reflexivity|unfold or_default; lia]).
    + left. rewrite observed_last. simpl. rewrite S2. reflexivity.
  - intros cloudAccountId r0 r1 r2 H0 H1 H2 S0 S1 S2.
    set (rs := fun k => match k with O => r0 | S O => r1 | _ => r2 end).
    apply (returns_polling_trace _ _ (GetCloudAccount cloudAccountId) 5 2).
    change r2 with (observed (fun x => x) (fun _ x => x) rs 2).
    apply (helper_returns remote _ (fun x => x) (fun _ x => x) _ (fun x => x)
             _ _ _ _ _ (waitForCloudAccountStatus_poll remote cloudAccountId
                          (JStr "active") (Some 10) (Some 5)) 2 rs).
    + intros k Hk. destruct k as [|[|[|k]]]; [exact H0|exact H1|exact H2|lia].
    + intros k Hk. rewrite observed_last.
      destruct k as [|[|k]]; [simpl; rewrite S0|simpl; rewrite S1|lia];
        (split; [reflexivity|unfold or_default; lia]).
    + left. rewrite observed_last. simpl. rewrite S2. reflexivity.
Qed.

Lemma C5_active_at_the_timeout_tick_witness :
  let remote := status_feed (script [JStr "creating"; JStr "creating"] (JStr "active")) in
  returns_with
    (waitForSubscriptionStatus remote 7 (JStr "active") (Some 10) (Some 5))
    (SubscriptionResponse.mk 7 (JStr "active") []) 3 2 10
  /\ returns_with
       (waitForDatabaseStatus remote 7 2 (JStr "active") (Some 10) (Some 5))
       (DatabaseResponse.mk 2 (JStr "active") []) 3 2 10
  /\ returns_with
       (waitForCloudAccountStatus remote 3 (JStr "active") (Some 10) (Some 5))
       (CloudAccountResponse.mk 3 (JStr "active") []) 3 2 10.
Proof.
  intros remote.
  destruct (C5_active_at_the_timeout_tick remote) as (Hsub & Hdb & Hca).
  split; [|split].
  - apply (Hsub 7 (SubscriptionResponse.mk 7 (JStr "creating") [])
             (SubscriptionResponse.mk 7 (JStr "creating") [])); reflexivity.
  - apply (Hdb 7 2 (DatabaseResponse.mk 2 (JStr "creating") [])
             (DatabaseResponse.mk 2 (JStr "creating") [])); reflexivity.
  - apply (Hca 3 (CloudAccountResponse.mk 3 (JStr "creating") [])
             (CloudAccountResponse.mk 3 (JStr "creating") [])); reflexivity.
Defined.

(** C6.  When the fetches of a wait helper are answered, with
    [0 < sleepTimeInSeconds] and durations on which the sums are exact, its
    loop is left after some number [n] of sleeps, whether on
    [expectedStatus], on the error sentinel, on an undefined status or on
    the timeout.  [waitForSubscriptionStatus], [waitForDatabaseStatus] and
    [waitForCloudAccountStatus] then resolve with the resource of the last
    fetch, the resource alone: a status in it that would keep the loop going
    tells that the timeout was exceeded.  [waitForVpcPeeringStatus] is
    rejected instead, by the read of [status] at line 357, also when it is
    the timeout that ended the loop. *)
Theorem C6_timeout_ends_the_wait :
  forall (remote : Remote) (expectedStatus : JsVal)
         (timeoutInSeconds sleepTimeInSeconds : Z),
    0 < sleepTimeInSeconds ->
    exact_durations timeoutInSeconds sleepTimeInSeconds ->
    (forall subscriptionId rs,
        (forall k, remote k _ (GetSubscription subscriptionId) = Ok (rs k)) ->
        exists n : nat,
          returns_with
            (waitForSubscriptionStatus remote subscriptionId expectedStatus
               (Some timeoutInSeconds) (Some sleepTimeInSeconds))
            (rs n) (S n) n (Z.of_nat n * sleepTimeInSeconds)
          /\ (continuing expectedStatus (JStr "error")
                (SubscriptionResponse.status (rs n)) = true ->
              timeoutInSeconds < Z.of_nat n * sleepTimeInSeconds))
    /\ (forall subscriptionId vpcPeeringId ls,
        (forall k, remote k _ (GetVpcPeerings subscriptionId) = Ok (ls k)) ->
        exists n : nat,
          rejects_with
            (waitForVpcPeeringStatus remote subscriptionId vpcPeeringId expectedStatus
               (Some timeoutInSeconds) (Some sleepTimeInSeconds))
            (ReferenceError "status") (S n) n
          /\ (continuing expectedStatus (JStr "failed")
                (snd (vpc_state vpcPeeringId ls n)) = true ->
              timeoutInSeconds < Z.of_nat n * sleepTimeInSeconds))
    /\ (forall subscriptionId databaseId rs,
        (forall k, remote k _ (GetDatabase subscriptionId databaseId) = Ok (rs k)) ->
        exists n : nat,
          returns_with
            (waitForDatabaseStatus remote subscriptionId databaseId expectedStatus
               (Some timeoutInSeconds) (Some sleepTimeInSeconds))
            (rs n) (S n) n (Z.of_nat n * sleepTimeInSeconds)
          /\ (continuing expectedStatus (JStr "error")
                (DatabaseResponse.status (rs n)) = true ->
              timeoutInSeconds < Z.of_nat n * sleepTimeInSeconds))
    /\ (forall cloudAccountId rs,
        (forall k, remote k _ (GetCloudAccount cloudAccountId) = Ok (rs k)) ->
        exists n : nat,
          returns_with
            (waitForCloudAccountStatus remote cloudAccountId expectedStatus
               (Some timeoutInSeconds) (Some sleepTimeInSeconds))
            (rs n) (S n) n (Z.of_nat n * sleepTimeInSeconds)
          /\ (continuing expectedStatus (JStr "error")
                (CloudAccountResponse.status (rs n)) = true ->
              timeoutInSeconds < Z.of_nat n * sleepTimeInSeconds)).
Proof.
  intros remote expectedStatus timeoutInSeconds sleepTimeInSeconds Hsl _.
  split; [|split; [|split]].
  - intros subscriptionId rs Hok.
    destruct (helper_settles remote _ (fun x => x) (fun _ x => x) _ (fun x => x)
                _ _ _ _ _ (waitForSubscriptionStatus_poll remote subscriptionId
                             expectedStatus (Some timeoutInSeconds)
                             (Some sleepTimeInSeconds)) rs Hsl Hok)
      as (n & Hret & _ & Hout).
    rewrite observed_last in Hret, Hout. exists n.
    split; [exact (returns_polling_trace _ _ _ _ _ Hret)|exact Hout].
  - intros subscriptionId vpcPeeringId ls Hok.
    destruct (helper_settles remote _ _ _ _ (fun s => fst s)
                _ _ _ _ _ (vpc_polling_poll remote subscriptionId
                             vpcPeeringId expectedStatus (Some timeoutInSeconds)
                             (Some sleepTimeInSeconds)) ls Hsl Hok)
      as (n & Hret & _ & Hout).
    exists n. split; [|exact Hout].
    apply (vpc_wait_rejects_with remote subscriptionId vpcPeeringId expectedStatus
             (Some timeoutInSeconds) (Some sleepTimeInSeconds) _ _ _ _
             (returns_polling_trace _ _ _ _ _ Hret)).
  - intros subscriptionId databaseId rs Hok.
    destruct (helper_settles remote _ (fun x => x) (fun _ x => x) _ (fun x => x)
                _ _ _ _ _ (waitForDatabaseStatus_poll remote subscriptionId databaseId
                             expectedStatus (Some timeoutInSeconds)
                             (Some sleepTimeInSeconds)) rs Hsl Hok)
      as (n & Hret & _ & Hout).
    rewrite observed_last in Hret, Hout. exists n.
    split; [exact (returns_polling_trace _ _ _ _ _ Hret)|exact Hout].
  - intros cloudAccountId rs Hok.
    destruct (helper_settles remote _ (fun x => x) (fun _ x => x) _ (fun x => x)
                _ _ _ _ _ (waitForCloudAccountStatus_poll remote cloudAccountId
                             expectedStatus (Some timeoutInSeconds)
                             (Some sleepTimeInSeconds)) rs Hsl Hok)
      as (n & Hret & _ & Hout).
    rewrite observed_last in Hret, Hout. exists n.
    split; [exact (returns_polling_trace _ _ _ _ _ Hret)|exact Hout].
Qed.

Lemma C6_timeout_ends_the_wait_witness :
  let remote := status_feed (fun _ => JStr "pending") in
  0 < 5 /\ exact_durations 10 5
  /\ (exists n : nat,
        returns_with
          (waitForSubscriptionStatus remote 7 (JStr "active") (Some 10) (Some 5))
          (SubscriptionResponse.mk 7 (JStr "pending") []) (S n) n (Z.of_nat n * 5)
        /\ (continuing (JStr "active") (JStr "error") (JStr "pending") = true ->
            10 < Z.of_nat n * 5))
  /\ (exists n : nat,
        rejects_with
          (waitForVpcPeeringStatus remote 7 1 (JStr "active") (Some 10) (Some 5))
          (ReferenceError "status") (S n) n
        /\ (continuing (JStr "active") (JStr "failed")
              (snd (vpc_state 1
                      (fun _ => [SubscriptionVpcPeering.mk 1 (JStr "pending") []]) n))
            = true ->
            10 < Z.of_nat n * 5))
  /\ (exists n : nat,
        returns_with
          (waitForDatabaseStatus remote 7 2 (JStr "active") (Some 10) (Some 5))
          (DatabaseResponse.mk 2 (JStr "pending") []) (S n) n (Z.of_nat n * 5)
        /\ (continuing (JStr "active") (JStr "error") (JStr "pending") = true ->
            10 < Z.of_nat n * 5))
  /\ (exists n : nat,
        returns_with
          (waitForCloudAccountStatus remote 3 (JStr "active") (Some 10) (Some 5))
          (CloudAccountResponse.mk 3 (JStr "pending") []) (S n) n (Z.of_nat n * 5)
        /\ (continuing (JStr "active") (JStr "error") (JStr "pending") = true ->
            10 < Z.of_nat n * 5)).
Proof.
  intros remote.
  assert (Hsl : 0 < 5) by lia.
  assert (Hex : exact_durations 10 5) by (unfold exact_durations, max_exact; lia).
  destruct (C6_timeout_ends_the_wait remote (JStr "active") 10 5 Hsl Hex)
    as (Hsub & Hvpc & Hdb & Hca).
  split; [exact Hsl|]. split; [exact Hex|].
  split; [|split; [|split]].
  - apply (Hsub 7 (fun _ => SubscriptionResponse.mk 7 (JStr "pending") [])).
    intros k. reflexivity.
  - apply (Hvpc 7 1 (fun _ => [SubscriptionVpcPeering.mk 1 (JStr "pending") []])).
    intros k. reflexivity.
  - apply (Hdb 7 2 (fun _ => DatabaseResponse.mk 2 (JStr "pending") [])).
    intros k. reflexivity.
  - apply (Hca 3 (fun _ => CloudAccountResponse.mk 3 (JStr "pending") [])).
    intros k. reflexivity.
Defined.



(** A run on that remote service, event by event: two fetches of database 1,
    then three of database 2. *)
Example waitForSubscriptionDatabasesStatus_trace :
  waitForSubscriptionDatabasesStatus
    (status_feed (script [JStr "active"; JStr "pending"; JStr "active";
                          JStr "pending"; JStr "pending"] (JStr "active")))
    7 None None None 5 []
  = (Resolved tt,
     [EvRequest (GetDatabases 7);
      EvRequest (GetDatabase 7 1); EvLog "debug"; EvSleep 5;
      EvRequest (GetDatabase 7 1); EvLog "debug";
      EvRequest (GetDatabase 7 2); EvLog "debug"; EvSleep 5;
      EvRequest (GetDatabase 7 2); EvLog "debug"; EvSleep 5;
      EvRequest (GetDatabase 7 2); EvLog "debug"]).
Proof. reflexivity. Qed.



(** C9.  An omitted [timeoutInSeconds] or [sleepTimeInSeconds] takes the
    default of the helper: 1200 and 5 seconds for
    [waitForSubscriptionStatus], 300 and 5 for [waitForVpcPeeringStatus],
    [waitForDatabaseStatus] and [waitForCloudAccountStatus], 1200 and 5 for
    [waitForTaskStatus], whatever the method of the task accessor is. *)
Theorem C9_default_parameters :
  forall (remote : Remote)
         (task_waitForTaskStatus : Z -> JsVal -> Z -> Z -> nat -> Async TaskResponse.t)
         (subscriptionId vpcPeeringId databaseId cloudAccountId taskId : Z)
         (expectedStatus : JsVal) (timeoutInSeconds sleepTimeInSeconds : option Z),
    waitForSubscriptionStatus remote subscriptionId expectedStatus
      timeoutInSeconds sleepTimeInSeconds
    = waitForSubscriptionStatus remote subscriptionId expectedStatus
        (Some (or_default timeoutInSeconds 1200)) (Some (or_default sleepTimeInSeconds 5))
    /\ waitForVpcPeeringStatus remote subscriptionId vpcPeeringId expectedStatus
         timeoutInSeconds sleepTimeInSeconds
       = waitForVpcPeeringStatus remote subscriptionId vpcPeeringId expectedStatus
           (Some (or_default timeoutInSeconds 300)) (Some (or_default sleepTimeInSeconds 5))
    /\ waitForDatabaseStatus remote subscriptionId databaseId expectedStatus
         timeoutInSeconds sleepTimeInSeconds
       = waitForDatabaseStatus remote subscriptionId databaseId expectedStatus
           (Some (or_default timeoutInSeconds 300)) (Some (or_default sleepTimeInSeconds 5))
    /\ waitForCloudAccountStatus remote cloudAccountId expectedStatus
         timeoutInSeconds sleepTimeInSeconds
       = waitForCloudAccountStatus remote cloudAccountId expectedStatus
           (Some (or_default timeoutInSeconds 300)) (Some (or_default sleepTimeInSeconds 5))
    /\ waitForTaskStatus task_waitForTaskStatus taskId expectedStatus
         timeoutInSeconds sleepTimeInSeconds
       = task_waitForTaskStatus taskId expectedStatus
           (or_default timeoutInSeconds 1200) (or_default sleepTimeInSeconds 5).
Proof.
  intros. destruct timeoutInSeconds, sleepTimeInSeconds; repeat split; reflexivity.
Qed.

(** C10 (as the code has it).  For the four helpers whose loop is in
    [src/api.ts], called with [0 <= timeoutInSeconds]:
    with [0 < sleepTimeInSeconds] and durations on which the sums are exact,
    whatever the remote service answers, any fuel from
    [timeoutInSeconds / sleepTimeInSeconds + 1] on ends the call, within
    [timeoutInSeconds / sleepTimeInSeconds + 2] fetches;
    with [sleepTimeInSeconds = 0], statuses that always keep the loop going
    leave the call running whatever the fuel, the time slept staying 0. *)
Theorem C10_termination_needs_positive_sleep :
  forall (remote : Remote) (expectedStatus : JsVal) (timeoutInSeconds : Z),
    0 <= timeoutInSeconds ->
    (forall (sleepTimeInSeconds : Z) (fuel : nat),
        0 < sleepTimeInSeconds ->
        exact_durations timeoutInSeconds sleepTimeInSeconds ->
        (Z.to_nat (timeoutInSeconds / sleepTimeInSeconds) + 1 <= fuel)%nat ->
        let nfetches := timeoutInSeconds / sleepTimeInSeconds + 2 in
        (forall subscriptionId,
            settled_within nfetches
              (waitForSubscriptionStatus remote subscriptionId expectedStatus
                 (Some timeoutInSeconds) (Some sleepTimeInSeconds) fuel []))
        /\ (forall subscriptionId vpcPeeringId,
            settled_within nfetches
              (waitForVpcPeeringStatus remote subscriptionId vpcPeeringId
                 expectedStatus (Some timeoutInSeconds) (Some sleepTimeInSeconds)
                 fuel []))
        /\ (forall subscriptionId databaseId,
            settled_within nfetches
              (waitForDatabaseStatus remote subscriptionId databaseId
                 expectedStatus (Some timeoutInSeconds) (Some sleepTimeInSeconds)
                 fuel []))
        /\ (forall cloudAccountId,
            settled_within nfetches
              (waitForCloudAccountStatus remote cloudAccountId expectedStatus
                 (Some timeoutInSeconds) (Some sleepTimeInSeconds) fuel [])))
    /\ ((forall subscriptionId rs,
            (forall k, remote k _ (GetSubscription subscriptionId) = Ok (rs k)) ->
            (forall k, continuing expectedStatus (JStr "error")
                         (SubscriptionResponse.status (rs k)) = true) ->
            stuck (waitForSubscriptionStatus remote subscriptionId expectedStatus
                     (Some timeoutInSeconds) (Some 0)))
        /\ (forall subscriptionId vpcPeeringId ls,
            (forall k, remote k _ (GetVpcPeerings subscriptionId) = Ok (ls k)) ->
            (forall k, continuing expectedStatus (JStr "failed")
                         (snd (vpc_state vpcPeeringId ls k)) = true) ->
            stuck (waitForVpcPeeringStatus remote subscriptionId vpcPeeringId
                     expectedStatus (Some timeoutInSeconds) (Some 0)))
        /\ (forall subscriptionId databaseId rs,
            (forall k, remote k _ (GetDatabase subscriptionId databaseId) = Ok (rs k)) ->
            (forall k, continuing expectedStatus (JStr "error")
                         (DatabaseResponse.status (rs k)) = true) ->
            stuck (waitForDatabaseStatus remote subscriptionId databaseId
                     expectedStatus (Some timeoutInSeconds) (Some 0)))
        /\ (forall cloudAccountId rs,
            (forall k, remote k _ (GetCloudAccount cloudAccountId) = Ok (rs k)) ->
            (forall k, continuing expectedStatus (JStr "error")
                         (CloudAccountResponse.status (rs k)) = true) ->
            stuck (waitForCloudAccountStatus remote cloudAccountId expectedStatus
                     (Some timeoutInSeconds) (Some 0)))).
Proof.
  intros remote expectedStatus timeoutInSeconds Hto. split.
  - intros sleepTimeInSeconds fuel Hsl _ Hfuel nfetches. subst nfetches.
    assert (Hdiv : 0 <= timeoutInSeconds / sleepTimeInSeconds)
      by (apply Z.div_pos; lia).
    assert (Hz : forall A (o : Outcome A * World),
              fst o <> Pending
              /\ (fetches (snd o)
                  <= Z.to_nat (timeoutInSeconds / sleepTimeInSeconds) + 2)%nat ->
              settled_within (timeoutInSeconds / sleepTimeInSeconds + 2) o).
    { intros A o [Hp Hn]. split; [exact Hp|lia]. }
    split; [|split; [|split]].
    + intros subscriptionId. apply Hz.
      apply (helper_bound remote _ (fun x => x) (fun _ x => x) _ (fun x => x)
               _ _ _ _ _ (waitForSubscriptionStatus_poll remote subscriptionId
                            expectedStatus (Some timeoutInSeconds)
                            (Some sleepTimeInSeconds)) fuel Hsl Hfuel).
    + intros subscriptionId vpcPeeringId. apply vpc_wait_settled_within. apply Hz.
      apply (helper_bound remote _ _ _ _ (fun s => fst s)
               _ _ _ _ _ (vpc_polling_poll remote subscriptionId
                            vpcPeeringId expectedStatus (Some timeoutInSeconds)
                            (Some sleepTimeInSeconds)) fuel Hsl Hfuel).
    + intros subscriptionId databaseId. apply Hz.
      apply (helper_bound remote _ (fun x => x) (fun _ x => x) _ (fun x => x)
               _ _ _ _ _ (waitForDatabaseStatus_poll remote subscriptionId databaseId
                            expectedStatus (Some timeoutInSeconds)
                            (Some sleepTimeInSeconds)) fuel Hsl Hfuel).
    + intros cloudAccountId. apply Hz.
      apply (helper_bound remote _ (fun x => x) (fun _ x => x) _ (fun x => x)
               _ _ _ _ _ (waitForCloudAccountStatus_poll remote cloudAccountId
                            expectedStatus (Some timeoutInSeconds)
                            (Some sleepTimeInSeconds)) fuel Hsl Hfuel).
  - split; [|split; [|split]].
    + intros subscriptionId rs Hok Hgo.
      apply (helper_diverges remote _ (fun x => x) (fun _ x => x) _ (fun x => x)
               _ _ _ _ _ (waitForSubscriptionStatus_poll remote subscriptionId
                            expectedStatus (Some timeoutInSeconds) (Some 0))
               rs eq_refl Hto Hok).
      intros k. rewrite observed_last. apply Hgo.
    + intros subscriptionId vpcPeeringId ls Hok Hgo. apply vpc_wait_stuck.
      apply (helper_diverges remote _ _ _ _ (fun s => fst s)
               _ _ _ _ _ (vpc_polling_poll remote subscriptionId
                            vpcPeeringId expectedStatus (Some timeoutInSeconds) (Some 0))
               ls eq_refl Hto Hok Hgo).
    + intros subscriptionId databaseId rs Hok Hgo.
      apply (helper_diverges remote _ (fun x => x) (fun _ x => x) _ (fun x => x)
               _ _ _ _ _ (waitForDatabaseStatus_poll remote subscriptionId databaseId
                            expectedStatus (Some timeoutInSeconds) (Some 0))
               rs eq_refl Hto Hok).
      intros k. rewrite observed_last. apply Hgo.
    + intros cloudAccountId rs Hok Hgo.
      apply (helper_diverges remote _ (fun x => x) (fun _ x => x) _ (fun x => x)
               _ _ _ _ _ (waitForCloudAccountStatus_poll remote cloudAccountId
                            expectedStatus (Some timeoutInSeconds) (Some 0))
               rs eq_refl Hto Hok).
      intros k. rewrite observed_last. apply Hgo.
Qed.

Lemma C10_termination_needs_positive_sleep_witness :
  let remote := status_feed (fun _ => JStr "pending") in
  (0 < 5 /\ exact_durations 10 5
   /\ settled_within 4
        (waitForSubscriptionStatus remote 7 (JStr "active") (Some 10) (Some 5) 3 [])
   /\ settled_within 4
        (waitForVpcPeeringStatus remote 7 1 (JStr "active") (Some 10) (Some 5) 3 [])
   /\ settled_within 4
        (waitForDatabaseStatus remote 7 2 (JStr "active") (Some 10) (Some 5) 3 [])
   /\ settled_within 4
        (waitForCloudAccountStatus remote 3 (JStr "active") (Some 10) (Some 5) 3 []))
  /\ (0 <= 10
      /\ stuck (waitForSubscriptionStatus remote 7 (JStr "active") (Some 10) (Some 0))
      /\ stuck (waitForVpcPeeringStatus remote 7 1 (JStr "active") (Some 10) (Some 0))
      /\ stuck (waitForDatabaseStatus remote 7 2 (JStr "active") (Some 10) (Some 0))
      /\ stuck (waitForCloudAccountStatus remote 3 (JStr "active") (Some 10) (Some 0))).
Proof.
  intros remote.
  assert (Hsl : 0 < 5) by lia. assert (Hto : 0 <= 10) by lia.
  assert (Hex : exact_durations 10 5) by (unfold exact_durations, max_exact; lia).
  destruct (C10_termination_needs_positive_sleep remote (JStr "active") 10 Hto)
    as [Hbound (Ssub & Svpc & Sdb & Sca)].
  destruct (Hbound 5 3%nat Hsl Hex ltac:(simpl; lia)) as (Bsub & Bvpc & Bdb & Bca).
  split.
  - split; [exact Hsl|]. split; [exact Hex|]. split; [apply Bsub|]. split; [apply Bvpc|].
    split; [apply Bdb|apply Bca].
  - split; [exact Hto|]. split; [|split; [|split]].
    + apply (Ssub 7 (fun _ => SubscriptionResponse.mk 7 (JStr "pending") []));
        intros k; reflexivity.
    + apply (Svpc 7 1 (fun _ => [SubscriptionVpcPeering.mk 1 (JStr "pending") []])).
      * intros k. reflexivity.
      * intros k.
        rewrite (vpc_state_found 1
                   (fun _ => [SubscriptionVpcPeering.mk 1 (JStr "pending") []]) k
                   (SubscriptionVpcPeering.mk 1 (JStr "pending") []) eq_refl).
        reflexivity.
    + apply (Sdb 7 2 (fun _ => DatabaseResponse.mk 2 (JStr "pending") []));
        intros k; reflexivity.
    + apply (Sca 3 (fun _ => CloudAccountResponse.mk 3 (JStr "pending") []));
        intros k; reflexivity.
Defined.

(** C10 as stated fails for a negative timeout.  A subscription stays
    [pending].  With [timeoutInSeconds = -10] and [sleepTimeInSeconds = 5]
    the loop is not entered and the call returns after its one fetch, more
    than the [floor (-10 / 5) + 2 = 0] fetches of the claim.  With
    [timeoutInSeconds = -1] and [sleepTimeInSeconds = 0] no status ever stops
    the loop, and yet the call returns, after its one fetch. *)
Lemma C10_counterexample :
  let remote := status_feed (fun _ => JStr "pending") in
  let pending := SubscriptionResponse.mk 7 (JStr "pending") [] in
  (forall k, remote k _ (GetSubscription 7) = Ok pending
             /\ continuing (JStr "active") (JStr "error")
                  (SubscriptionResponse.status pending) = true)
  /\ (0 < 5
      /\ (forall fuel,
             waitForSubscriptionStatus remote 7 (JStr "active") (Some (-10)) (Some 5) fuel []
             = (Resolved pending, [EvRequest (GetSubscription 7); EvLog "debug"]))
      /\ (forall fuel,
             ~ settled_within (-10 / 5 + 2)
                 (waitForSubscriptionStatus remote 7 (JStr "active")
                    (Some (-10)) (Some 5) fuel [])))
  /\ (returns_with
        (waitForSubscriptionStatus remote 7 (JStr "active") (Some (-1)) (Some 0))
        pending 1 0 0
      /\ ~ diverges
             (waitForSubscriptionStatus remote 7 (JStr "active") (Some (-1)) (Some 0))).
Proof.
  intros remote pending.
  assert (Hten : forall fuel,
    waitForSubscriptionStatus remote 7 (JStr "active") (Some (-10)) (Some 5) fuel []
    = (Resolved pending, [EvRequest (GetSubscription 7); EvLog "debug"])).
  { intros fuel. destruct fuel; reflexivity. }
  assert (Hone : forall fuel,
    waitForSubscriptionStatus remote 7 (JStr "active") (Some (-1)) (Some 0) fuel []
    = (Resolved pending, [EvRequest (GetSubscription 7); EvLog "debug"])).
  { intros fuel. destruct fuel; reflexivity. }
  split; [|split; [|split]].
  - intros k. split; reflexivity.
  - split; [lia|]. split; [exact Hten|].
    intros fuel [_ H]. rewrite Hten in H. cbn in H. lia.
  - exists [EvRequest (GetSubscription 7); EvLog "debug"].
    split; [|repeat split].
    exists O. intros fuel _. apply Hone.
  - intros H. specialize (H O). rewrite Hone in H. discriminate H.
Qed.

(** ** Some runs, event by event *)

(** A subscription that stays [pending], a timeout of 10 seconds and a sleep
    time of 5: fetches at 0, 5, 10 and 15 seconds. *)
Example waitForSubscriptionStatus_trace :
  waitForSubscriptionStatus (status_feed (fun _ => JStr "pending")) 7 (JStr "active")
    (Some 10) (Some 5) 4 []
  = (Resolved (SubscriptionResponse.mk 7 (JStr "pending") []),
     [EvRequest (GetSubscription 7); EvLog "debug"; EvSleep 5;
      EvRequest (GetSubscription 7); EvLog "debug"; EvSleep 5;
      EvRequest (GetSubscription 7); EvLog "debug"; EvSleep 5;
      EvRequest (GetSubscription 7); EvLog "debug"]).
Proof. reflexivity. Qed.

(** A VPC peering that vanishes and comes back: the peering is missing at the
    second fetch and the loop goes on to a third, which shows it [active]
    and ends the loop; the read of [status] then rejects the call. *)
Example waitForVpcPeeringStatus_trace :
  waitForVpcPeeringStatus
    (vpc_feed (fun k => match k with
                        | O => [SubscriptionVpcPeering.mk 1 (JStr "pending") []]
                        | S O => []
                        | _ => [SubscriptionVpcPeering.mk 1 (JStr "active") []]
                        end))
    7 1 (JStr "active") (Some 10) (Some 5) 4 []
  = (Rejected (ReferenceError "status"),
     [EvRequest (GetVpcPeerings 7); EvLog "debug"; EvSleep 5;
      EvRequest (GetVpcPeerings 7); EvLog "debug"; EvSleep 5;
      EvRequest (GetVpcPeerings 7)]).
Proof. reflexivity. Qed.

(** A request that the transport fails makes the helper reject with the
    transport's error: nothing is caught. *)
Example waitForSubscriptionStatus_rejects :
  waitForSubscriptionStatus (vpc_feed (fun _ => [])) 7 (JStr "active") None None 4 []
  = (Rejected (mkError (JNum 404) "Not Found" ""), [EvRequest (GetSubscription 7)]).
Proof. reflexivity. Qed.

(** * Further properties of the helpers *)

(** ** More on the loop of [poll] *)

Section PollMore.

Context {X V : Type}.
Variable remote : Remote.
Variable q : Request X.
Variable upd : V -> X -> V.
Variable st : V -> JsVal.
Variables expectedStatus sentinel : JsVal.
Variables timeout sl : Z.

Local Abbreviation cond := (poll_cond st expectedStatus sentinel timeout).
Local Abbreviation body := (poll_body remote q upd sl).



(** With a positive sleep time the loop never makes more iterations than
    the budget, whatever the fuel and the replies. *)
Lemma while_poll_budget (fuel : nat) :
  forall (s : V) (t : Z) (w : World),
    0 < sl ->
    0 <= t ->
    exists n : nat,
      snd (while_ fuel cond body (s, t) w) = w ++ iterations q sl n
      /\ (n = O \/ t + Z.of_nat n * sl <= timeout + sl).
Proof.
  induction fuel as [|fuel IH]; intros s t w Hsl Ht;
    destruct (cond (s, t)) eqn:H0.
  - exists O. rewrite (while_out_of_fuel _ _ _ H0). simpl. rewrite app_nil_r. auto.
  - exists O. rewrite (while_stop _ _ _ _ H0). simpl. rewrite app_nil_r. auto.
  - assert (Hle : t <= timeout).
    { unfold poll_cond in H0. apply andb_prop in H0. now apply Z.leb_le. }
    rewrite (while_step _ _ _ _ H0). unfold bind.
    destruct (remote (fetches w) X q) as [x|e] eqn:Hr.
    + rewrite (poll_body_ok remote q upd sl s t w x Hr).
      destruct (IH (upd s x) (t + sl)
                  (w ++ [EvLog "debug"; EvSleep sl; EvRequest q]) Hsl ltac:(lia))
        as (n & Hw & Hn).
      exists (S n). rewrite Hw. split; [now rewrite <- app_assoc|].
      right. destruct Hn as [->|Hn]; lia.
    + rewrite (poll_body_fail remote q upd sl s t w e Hr).
      exists 1%nat. split; [reflexivity|]. right. lia.
  - exists O. rewrite (while_stop _ _ _ _ H0). simpl. rewrite app_nil_r. auto.
Qed.

(** The loop rejects with the error of a request that failed, and with
    nothing else. *)
Lemma while_poll_rejection :
  forall (fuel : nat) (s : V) (t : Z) (w : World) (x : Rejection) (w' : World),
    while_ fuel cond body (s, t) w = (Rejected x, w') ->
    exists (k : nat) (e : Error), remote k X q = Fail e /\ x = RequestError e.
Proof.
  induction fuel as [|fuel IH]; intros s t w x w' Hrun;
    destruct (cond (s, t)) eqn:H0.
  - rewrite (while_out_of_fuel _ _ _ H0) in Hrun. discriminate Hrun.
  - rewrite (while_stop _ _ _ _ H0) in Hrun. discriminate Hrun.
  - rewrite (while_step _ _ _ _ H0) in Hrun. unfold bind in Hrun.
    destruct (remote (fetches w) X q) as [y|e] eqn:Hr.
    + rewrite (poll_body_ok remote q upd sl s t w y Hr) in Hrun.
      apply (IH _ _ _ _ _ Hrun).
    + rewrite (poll_body_fail remote q upd sl s t w e Hr) in Hrun.
      injection Hrun as <- _. now exists (fetches w), e.
  - rewrite (while_stop _ _ _ _ H0) in Hrun. discriminate Hrun.
Qed.

End PollMore.

(** ** More on a helper built on [poll] *)

Section HelperMore.

Context {A X V : Type}.
Variable remote : Remote.
Variable q : Request X.
Variable init : X -> V.
Variable upd : V -> X -> V.
Variable st : V -> JsVal.
Variable out : V -> A.
Variables expectedStatus sentinel : JsVal.
Variables timeout sl : Z.
Variable run : nat -> Async A.

Hypothesis run_poll : forall fuel w,
  run fuel w
  = (r <- poll remote fuel q init upd st expectedStatus sentinel timeout sl ;;
     log "debug" ;;
     ret (out (fst r))) w.

Local Abbreviation seen := (observed init upd).
Local Abbreviation unfold_run :=
  (run_from remote q init upd st out expectedStatus sentinel timeout sl run run_poll).


(** [helper_returns] for a call made after the effects [w]. *)
Lemma helper_returns_from (n : nat) (xs : nat -> X) (w : World) (fuel : nat) :
  (forall k, (k <= n)%nat -> remote (fetches w + k)%nat X q = Ok (xs k)) ->
  (forall k, (k < n)%nat ->
     continuing expectedStatus sentinel (st (seen xs k)) = true
     /\ Z.of_nat k * sl <= timeout) ->
  continuing expectedStatus sentinel (st (seen xs n)) = false
  \/ timeout < Z.of_nat n * sl ->
  (n <= fuel)%nat ->
  run fuel w = (Resolved (out (seen xs n)), w ++ polling_trace q sl n).
Proof.
  intros Hok Hgo Hstop Hfuel. rewrite unfold_run.
  pose proof (Hok O ltac:(lia)) as H0. rewrite Nat.add_0_r in H0. rewrite H0.
  rewrite (while_poll_run remote q upd st expectedStatus sentinel timeout sl n
             (fun i => xs (S i)) (init (xs O)) 0 (w ++ [EvRequest q]) fuel).
  - unfold polling_trace.
    change (EvRequest q :: iterations q sl n ++ [EvLog "debug"])
      with ([EvRequest q] ++ iterations q sl n ++ [EvLog "debug"]).
    now rewrite <- !app_assoc.
  - intros k Hk. rewrite fetches_app. change (fetches [EvRequest q]) with 1%nat.
    replace (fetches w + 1 + k)%nat with (fetches w + S k)%nat by lia.
    apply Hok. lia.
  - intros k Hk. unfold poll_cond. apply andb_true_intro.
    destruct (Hgo k Hk) as [Hc Ht]. split; [exact Hc|]. apply Z.leb_le. lia.
  - unfold poll_cond. destruct Hstop as [Hc|Ht].
    + unfold observed in Hc. now rewrite Hc.
    + apply andb_false_intro2. apply Z.leb_gt. lia.
  - exact Hfuel.
Qed.

(** A negative timeout: the loop is not entered, whatever the status. *)
Lemma helper_no_budget (x : X) (fuel : nat) :
  timeout < 0 ->
  remote O X q = Ok x ->
  run fuel [] = (Resolved (out (init x)), [EvRequest q; EvLog "debug"]).
Proof.
  intros Hto Hok. rewrite unfold_run. change (fetches []) with O.
  rewrite Hok, while_stop; [reflexivity|].
  unfold poll_cond. apply andb_false_intro2. apply Z.leb_gt. exact Hto.
Qed.

(** The events of any run: the first request, then whole iterations, then
    the last log line if the run has resolved.  *)
Lemma helper_trace (fuel : nat) :
  exists n : nat,
    snd (run fuel [])
    = EvRequest q :: iterations q sl n
        ++ match fst (run fuel []) with
           | Resolved _ => [EvLog "debug"]
           | _ => []
           end.
Proof.
  rewrite unfold_run. change (fetches []) with O.
  destruct (remote O X q) as [x|e].
  - change ([] ++ [EvRequest q]) with [EvRequest q].
    destruct (while_poll_world remote q upd st expectedStatus sentinel timeout sl fuel
                (init x) 0 [EvRequest q]) as (n & Hw & _).
    exists n.
    destruct (while_ fuel _ _ (init x, 0) [EvRequest q]) as [[r|e|] w'];
      cbn [fst snd] in Hw |- *; subst w'.
    + reflexivity.
    + now rewrite app_nil_r.
    + now rewrite app_nil_r.
  - exists O. reflexivity.
Qed.

(** With a positive sleep time and a timeout that is not negative, no run
    sleeps longer than the timeout and one sleep time. *)
Lemma helper_slept_bound (fuel : nat) :
  0 <= timeout ->
  0 < sl ->
  slept (snd (run fuel [])) <= timeout + sl.
Proof.
  intros Hto Hsl. rewrite unfold_run. change (fetches []) with O.
  destruct (remote O X q) as [x|e].
  - change ([] ++ [EvRequest q]) with [EvRequest q].
    destruct (while_poll_budget remote q upd st expectedStatus sentinel timeout sl fuel
                (init x) 0 [EvRequest q] Hsl (Z.le_refl 0)) as (n & Hw & Hn).
    destruct (while_ fuel _ _ (init x, 0) [EvRequest q]) as [[r|e|] w'];
      cbn [snd] in Hw |- *; subst w';
      rewrite ?slept_app, slept_iterations;
      change (slept [EvRequest q]) with 0; try change (slept [EvLog "debug"]) with 0;
      (destruct Hn as [Hn|Hn]; [subst n; change (Z.of_nat 0) with 0|]; lia).
  - cbn [snd]. change (slept ([] ++ [EvRequest q])) with 0. lia.
Qed.

(** A sleep time that is not positive never takes the time passed beyond a
    timeout that is not negative. *)
Lemma helper_diverges_nonpositive (xs : nat -> X) :
  sl <= 0 ->
  0 <= timeout ->
  (forall k, remote k X q = Ok (xs k)) ->
  (forall k, continuing expectedStatus sentinel (st (seen xs k)) = true) ->
  diverges run.
Proof.
  intros Hsl Hto Hok Hgo fuel. rewrite unfold_run. change (fetches []) with O.
  rewrite (Hok O). change ([] ++ [EvRequest q]) with [EvRequest q].
  assert (Hp : fst (while_ fuel (poll_cond st expectedStatus sentinel timeout)
                      (poll_body remote q upd sl) (init (xs O), 0) [EvRequest q])
               = Pending).
  { apply (while_poll_pending remote q upd st expectedStatus sentinel timeout sl fuel
             (fun i => xs (S i))).
    - intros k. apply (Hok (S k)).
    - intros k. unfold poll_cond. apply andb_true_intro.
      split; [apply (Hgo k)|apply Z.leb_le; nia]. }
  destruct (while_ fuel _ _ (init (xs O), 0) [EvRequest q]) as [[r|e|] w'];
    cbn [fst] in Hp |- *; [discriminate Hp|discriminate Hp|reflexivity].
Qed.


(** [helper_immediate] for a call made after the effects [w]. *)
Lemma helper_immediate_from (w : World) (x : X) (fuel : nat) :
  remote (fetches w) X q = Ok x ->
  continuing expectedStatus sentinel (st (init x)) = false ->
  run fuel w = (Resolved (out (init x)), w ++ [EvRequest q; EvLog "debug"]).
Proof.
  intros Hok Hc. rewrite unfold_run, Hok, while_stop.
  - change [EvRequest q; EvLog "debug"] with ([EvRequest q] ++ [EvLog "debug"]).
    now rewrite app_assoc.
  - unfold poll_cond. now rewrite Hc.
Qed.

(** A call is rejected with the error of a request that failed, and with
    nothing else. *)
Lemma helper_failed_request (fuel : nat) (x : Rejection) (w : World) :
  run fuel [] = (Rejected x, w) ->
  exists (k : nat) (e : Error), remote k X q = Fail e /\ x = RequestError e.
Proof.
  rewrite unfold_run.
  destruct (remote (fetches []) X q) as [y|e] eqn:Hr.
  - destruct (while_ fuel _ _ (init y, 0) ([] ++ [EvRequest q])) as [[r|x'|] w1] eqn:E;
      try discriminate.
    intros H. injection H as <- _.
    apply (while_poll_rejection remote q upd st expectedStatus sentinel timeout sl
             fuel (init y) 0 ([] ++ [EvRequest q]) x' w1 E).
  - intros H. injection H as <- _. now exists (fetches []), e.
Qed.

End HelperMore.

(** ** Properties of the four helpers whose loop is in [src/api.ts] *)





(** X3.  [waitForVpcPeeringStatus] does not poll for a peering that the first
    list does not hold: after that one fetch, whatever the expected status,
    the timeout and the sleep time, the call ends, rejected by the read of
    [status] at line 357. *)
Theorem X3_absent_peering_is_not_awaited :
  forall (remote : Remote) (subscriptionId vpcPeeringId : Z) (expectedStatus : JsVal)
         (timeoutInSeconds sleepTimeInSeconds : option Z) (fuel : nat)
         (vpcPeerings : list SubscriptionVpcPeering.t),
    remote O _ (GetVpcPeerings subscriptionId) = Ok vpcPeerings ->
    vpc_lookup vpcPeeringId vpcPeerings = None ->
    waitForVpcPeeringStatus remote subscriptionId vpcPeeringId expectedStatus
      timeoutInSeconds sleepTimeInSeconds fuel []
    = (Rejected (ReferenceError "status"), [EvRequest (GetVpcPeerings subscriptionId)]).
Proof.
  intros remote subscriptionId vpcPeeringId expectedStatus timeoutInSeconds
         sleepTimeInSeconds fuel vpcPeerings Hok Hfind.
  destruct (vpc_wait_raises remote subscriptionId vpcPeeringId expectedStatus
              timeoutInSeconds sleepTimeInSeconds
              (fst (vpc_init vpcPeeringId vpcPeerings)) fuel []
              [EvRequest (GetVpcPeerings subscriptionId); EvLog "debug"])
    as (w1 & E & Hrun).
  - apply (helper_immediate remote _ _ _ _ (fun s => fst s)
             _ _ _ _ _ (vpc_polling_poll remote subscriptionId vpcPeeringId
                          expectedStatus timeoutInSeconds sleepTimeInSeconds)
             vpcPeerings fuel Hok).
    unfold vpc_init. rewrite Hfind. apply continuing_undefined.
  - change [EvRequest (GetVpcPeerings subscriptionId); EvLog "debug"]
      with ([EvRequest (GetVpcPeerings subscriptionId)] ++ [EvLog "debug"]) in E.
    apply app_inj_tail in E. destruct E as [<- _]. exact Hrun.
Qed.

Lemma X3_absent_peering_is_not_awaited_witness :
  waitForVpcPeeringStatus (status_feed (fun _ => JStr "pending")) 7 2 (JStr "active")
    None None 0 []
  = (Rejected (ReferenceError "status"), [EvRequest (GetVpcPeerings 7)]).
Proof.
  apply (X3_absent_peering_is_not_awaited (status_feed (fun _ => JStr "pending")) 7 2
           (JStr "active") None None 0
           [SubscriptionVpcPeering.mk 1 (JStr "pending") []]);
    reflexivity.
Defined.

(** X4.  With a negative timeout the loop is not entered:
    [waitForSubscriptionStatus], [waitForDatabaseStatus] and
    [waitForCloudAccountStatus] return what their first fetch gives,
    whatever the status. *)
Theorem X4_negative_timeout_fetches_once :
  forall (remote : Remote) (expectedStatus : JsVal) (timeoutInSeconds : Z)
         (sleepTimeInSeconds : option Z) (fuel : nat),
    timeoutInSeconds < 0 ->
    (forall subscriptionId r,
        remote O _ (GetSubscription subscriptionId) = Ok r ->
        waitForSubscriptionStatus remote subscriptionId expectedStatus
          (Some timeoutInSeconds) sleepTimeInSeconds fuel []
        = (Resolved r, [EvRequest (GetSubscription subscriptionId); EvLog "debug"]))
    /\ (forall subscriptionId databaseId r,
        remote O _ (GetDatabase subscriptionId databaseId) = Ok r ->
        waitForDatabaseStatus remote subscriptionId databaseId expectedStatus
          (Some timeoutInSeconds) sleepTimeInSeconds fuel []
        = (Resolved r, [EvRequest (GetDatabase subscriptionId databaseId); EvLog "debug"]))
    /\ (forall cloudAccountId r,
        remote O _ (GetCloudAccount cloudAccountId) = Ok r ->
        waitForCloudAccountStatus remote cloudAccountId expectedStatus
          (Some timeoutInSeconds) sleepTimeInSeconds fuel []
        = (Resolved r, [EvRequest (GetCloudAccount cloudAccountId); EvLog "debug"])).
Proof.
  intros remote expectedStatus timeoutInSeconds sleepTimeInSeconds fuel Hto.
  split; [|split].
  - intros subscriptionId r Hok.
    apply (helper_no_budget remote _ (fun x => x) (fun _ x => x) _ (fun x => x)
             _ _ _ _ _ (waitForSubscriptionStatus_poll remote subscriptionId
                          expectedStatus (Some timeoutInSeconds) sleepTimeInSeconds)
             r fuel Hto Hok).
  - intros subscriptionId databaseId r Hok.
    apply (helper_no_budget remote _ (fun x => x) (fun _ x => x) _ (fun x => x)
             _ _ _ _ _ (waitForDatabaseStatus_poll remote subscriptionId databaseId
                          expectedStatus (Some timeoutInSeconds) sleepTimeInSeconds)
             r fuel Hto Hok).
  - intros cloudAccountId r Hok.
    apply (helper_no_budget remote _ (fun x => x) (fun _ x => x) _ (fun x => x)
             _ _ _ _ _ (waitForCloudAccountStatus_poll remote cloudAccountId
                          expectedStatus (Some timeoutInSeconds) sleepTimeInSeconds)
             r fuel Hto Hok).
Qed.

Lemma X4_negative_timeout_fetches_once_witness :
  let remote := status_feed (fun _ => JStr "pending") in
  -1 < 0
  /\ waitForSubscriptionStatus remote 7 (JStr "active") (Some (-1)) None 0 []
     = (Resolved (SubscriptionResponse.mk 7 (JStr "pending") []),
        [EvRequest (GetSubscription 7); EvLog "debug"])
  /\ waitForDatabaseStatus remote 7 2 (JStr "active") (Some (-1)) None 0 []
     = (Resolved (DatabaseResponse.mk 2 (JStr "pending") []),
        [EvRequest (GetDatabase 7 2); EvLog "debug"])
  /\ waitForCloudAccountStatus remote 3 (JStr "active") (Some (-1)) None 0 []
     = (Resolved (CloudAccountResponse.mk 3 (JStr "pending") []),
        [EvRequest (GetCloudAccount 3); EvLog "debug"]).
Proof.
  intros remote. assert (Hto : -1 < 0) by lia.
  destruct (X4_negative_timeout_fetches_once remote (JStr "active") (-1) None 0 Hto)
    as (Hsub & Hdb & Hca).
  split; [exact Hto|]. split; [|split].
  - apply Hsub. reflexivity.
  - apply Hdb. reflexivity.
  - apply Hca. reflexivity.
Defined.

(** X5.  A sleep time that is not positive, with a timeout that is not
    negative: the time passed never exceeds the timeout, and statuses that
    keep the loop going leave a wait helper running whatever the fuel. *)
Theorem X5_nonpositive_sleep_never_times_out :
  forall (remote : Remote) (expectedStatus : JsVal)
         (timeoutInSeconds sleepTimeInSeconds : Z),
    0 <= timeoutInSeconds ->
    sleepTimeInSeconds <= 0 ->
    (forall subscriptionId rs,
        (forall k, remote k _ (GetSubscription subscriptionId) = Ok (rs k)) ->
        (forall k, continuing expectedStatus (JStr "error")
                     (SubscriptionResponse.status (rs k)) = true) ->
        diverges (waitForSubscriptionStatus remote subscriptionId expectedStatus
                    (Some timeoutInSeconds) (Some sleepTimeInSeconds)))
    /\ (forall subscriptionId vpcPeeringId ls,
        (forall k, remote k _ (GetVpcPeerings subscriptionId) = Ok (ls k)) ->
        (forall k, continuing expectedStatus (JStr "failed")
                     (snd (vpc_state vpcPeeringId ls k)) = true) ->
        diverges (waitForVpcPeeringStatus remote subscriptionId vpcPeeringId
                    expectedStatus (Some timeoutInSeconds) (Some sleepTimeInSeconds)))
    /\ (forall subscriptionId databaseId rs,
        (forall k, remote k _ (GetDatabase subscriptionId databaseId) = Ok (rs k)) ->
        (forall k, continuing expectedStatus (JStr "error")
                     (DatabaseResponse.status (rs k)) = true) ->
        diverges (waitForDatabaseStatus remote subscriptionId databaseId
                    expectedStatus (Some timeoutInSeconds) (Some sleepTimeInSeconds)))
    /\ (forall cloudAccountId rs,
        (forall k, remote k _ (GetCloudAccount cloudAccountId) = Ok (rs k)) ->
        (forall k, continuing expectedStatus (JStr "error")
                     (CloudAccountResponse.status (rs k)) = true) ->
        diverges (waitForCloudAccountStatus remote cloudAccountId expectedStatus
                    (Some timeoutInSeconds) (Some sleepTimeInSeconds))).
Proof.
  intros remote expectedStatus timeoutInSeconds sleepTimeInSeconds Hto Hsl.
  split; [|split; [|split]].
  - intros subscriptionId rs Hok Hgo.
    apply (helper_diverges_nonpositive remote _ (fun x => x) (fun _ x => x) _ (fun x => x)
             _ _ _ _ _ (waitForSubscriptionStatus_poll remote subscriptionId
                          expectedStatus (Some timeoutInSeconds)
                          (Some sleepTimeInSeconds)) rs Hsl Hto Hok).
    intros k. rewrite observed_last. apply Hgo.
  - intros subscriptionId vpcPeeringId ls Hok Hgo. apply vpc_wait_diverges.
    apply (helper_diverges_nonpositive remote _ _ _ _ (fun s => fst s)
             _ _ _ _ _ (vpc_polling_poll remote subscriptionId vpcPeeringId
                          expectedStatus (Some timeoutInSeconds)
                          (Some sleepTimeInSeconds)) ls Hsl Hto Hok Hgo).
  - intros subscriptionId databaseId rs Hok Hgo.
    apply (helper_diverges_nonpositive remote _ (fun x => x) (fun _ x => x) _ (fun x => x)
             _ _ _ _ _ (waitForDatabaseStatus_poll remote subscriptionId databaseId
                          expectedStatus (Some timeoutInSeconds)
                          (Some sleepTimeInSeconds)) rs Hsl Hto Hok).
    intros k. rewrite observed_last. apply Hgo.
  - intros cloudAccountId rs Hok Hgo.
    apply (helper_diverges_nonpositive remote _ (fun x => x) (fun _ x => x) _ (fun x => x)
             _ _ _ _ _ (waitForCloudAccountStatus_poll remote cloudAccountId
                          expectedStatus (Some timeoutInSeconds)
                          (Some sleepTimeInSeconds)) rs Hsl Hto Hok).
    intros k. rewrite observed_last. apply Hgo.
Qed.

Lemma X5_nonpositive_sleep_never_times_out_witness :
  let remote := status_feed (fun _ => JStr "pending") in
  0 <= 10 /\ -5 <= 0
  /\ diverges (waitForSubscriptionStatus remote 7 (JStr "active") (Some 10) (Some (-5)))
  /\ diverges (waitForVpcPeeringStatus remote 7 1 (JStr "active") (Some 10) (Some (-5)))
  /\ diverges (waitForDatabaseStatus remote 7 2 (JStr "active") (Some 10) (Some (-5)))
  /\ diverges (waitForCloudAccountStatus remote 3 (JStr "active") (Some 10) (Some (-5))).
Proof.
  intros remote.
  assert (Hto : 0 <= 10) by lia. assert (Hsl : -5 <= 0) by lia.
  destruct (X5_nonpositive_sleep_never_times_out remote (JStr "active") 10 (-5) Hto Hsl)
    as (Hsub & Hvpc & Hdb & Hca).
  split; [exact Hto|]. split; [exact Hsl|]. split; [|split; [|split]].
  - apply (Hsub 7 (fun _ => SubscriptionResponse.mk 7 (JStr "pending") []));
      intros k; reflexivity.
  - apply (Hvpc 7 1 (fun _ => [SubscriptionVpcPeering.mk 1 (JStr "pending") []])).
    + intros k. reflexivity.
    + intros k.
      rewrite (vpc_state_found 1
                 (fun _ => [SubscriptionVpcPeering.mk 1 (JStr "pending") []]) k
                 (SubscriptionVpcPeering.mk 1 (JStr "pending") []) eq_refl).
      reflexivity.
  - apply (Hdb 7 2 (fun _ => DatabaseResponse.mk 2 (JStr "pending") []));
      intros k; reflexivity.
  - apply (Hca 3 (fun _ => CloudAccountResponse.mk 3 (JStr "pending") []));
      intros k; reflexivity.
Defined.

(** X6.  A wait helper called with [0 <= timeoutInSeconds],
    [0 < sleepTimeInSeconds] and durations on which the sums are exact never
    sleeps longer than the timeout and one sleep time, whatever the remote
    service answers and whatever the fuel. *)
Theorem X6_sleeps_at_most_timeout_plus_one_interval :
  forall (remote : Remote) (expectedStatus : JsVal)
         (timeoutInSeconds sleepTimeInSeconds : Z) (fuel : nat),
    0 <= timeoutInSeconds ->
    0 < sleepTimeInSeconds ->
    exact_durations timeoutInSeconds sleepTimeInSeconds ->
    (forall subscriptionId,
        slept (snd (waitForSubscriptionStatus remote subscriptionId expectedStatus
                      (Some timeoutInSeconds) (Some sleepTimeInSeconds) fuel []))
        <= timeoutInSeconds + sleepTimeInSeconds)
    /\ (forall subscriptionId vpcPeeringId,
        slept (snd (waitForVpcPeeringStatus remote subscriptionId vpcPeeringId
                      expectedStatus (Some timeoutInSeconds) (Some sleepTimeInSeconds)
                      fuel []))
        <= timeoutInSeconds + sleepTimeInSeconds)
    /\ (forall subscriptionId databaseId,
        slept (snd (waitForDatabaseStatus remote subscriptionId databaseId
                      expectedStatus (Some timeoutInSeconds) (Some sleepTimeInSeconds)
                      fuel []))
        <= timeoutInSeconds + sleepTimeInSeconds)
    /\ (forall cloudAccountId,
        slept (snd (waitForCloudAccountStatus remote cloudAccountId expectedStatus
                      (Some timeoutInSeconds) (Some sleepTimeInSeconds) fuel []))
        <= timeoutInSeconds + sleepTimeInSeconds).
Proof.
  intros remote expectedStatus timeoutInSeconds sleepTimeInSeconds fuel Hto Hsl _.
  split; [|split; [|split]].
  - intros subscriptionId.
    apply (helper_slept_bound remote _ (fun x => x) (fun _ x => x) _ (fun x => x)
             _ _ _ _ _ (waitForSubscriptionStatus_poll remote subscriptionId
                          expectedStatus (Some timeoutInSeconds)
                          (Some sleepTimeInSeconds)) fuel Hto Hsl).
  - intros subscriptionId vpcPeeringId.
    destruct (vpc_wait_counts remote subscriptionId vpcPeeringId expectedStatus
                (Some timeoutInSeconds) (Some sleepTimeInSeconds) fuel [])
      as (_ & _ & ->).
    apply (helper_slept_bound remote _ _ _ _ (fun s => fst s)
             _ _ _ _ _ (vpc_polling_poll remote subscriptionId vpcPeeringId
                          expectedStatus (Some timeoutInSeconds)
                          (Some sleepTimeInSeconds)) fuel Hto Hsl).
  - intros subscriptionId databaseId.
    apply (helper_slept_bound remote _ (fun x => x) (fun _ x => x) _ (fun x => x)
             _ _ _ _ _ (waitForDatabaseStatus_poll remote subscriptionId databaseId
                          expectedStatus (Some timeoutInSeconds)
                          (Some sleepTimeInSeconds)) fuel Hto Hsl).
  - intros cloudAccountId.
    apply (helper_slept_bound remote _ (fun x => x) (fun _ x => x) _ (fun x => x)
             _ _ _ _ _ (waitForCloudAccountStatus_poll remote cloudAccountId
                          expectedStatus (Some timeoutInSeconds)
                          (Some sleepTimeInSeconds)) fuel Hto Hsl).
Qed.

Lemma X6_sleeps_at_most_timeout_plus_one_interval_witness :
  let remote := status_feed (fun _ => JStr "pending") in
  0 <= 12 /\ 0 < 5 /\ exact_durations 12 5
  /\ slept (snd (waitForSubscriptionStatus remote 7 (JStr "active") (Some 12) (Some 5) 9 []))
     <= 12 + 5
  /\ slept (snd (waitForVpcPeeringStatus remote 7 1 (JStr "active") (Some 12) (Some 5) 9 []))
     <= 12 + 5
  /\ slept (snd (waitForDatabaseStatus remote 7 2 (JStr "active") (Some 12) (Some 5) 9 []))
     <= 12 + 5
  /\ slept (snd (waitForCloudAccountStatus remote 3 (JStr "active") (Some 12) (Some 5) 9 []))
     <= 12 + 5.
Proof.
  intros remote.
  assert (Hto : 0 <= 12) by lia. assert (Hsl : 0 < 5) by lia.
  assert (Hex : exact_durations 12 5) by (unfold exact_durations, max_exact; lia).
  destruct (X6_sleeps_at_most_timeout_plus_one_interval remote (JStr "active") 12 5 9
              Hto Hsl Hex) as (Hsub & Hvpc & Hdb & Hca).
  split; [exact Hto|]. split; [exact Hsl|]. split; [exact Hex|]. split; [|split; [|split]].
  - apply Hsub.
  - apply Hvpc.
  - apply Hdb.
  - apply Hca.
Defined.

Lemma trace_alternates {X : Type} (q : Request X) (sl : Z) (n : nat) (last : World) :
  last = [] \/ last = [EvLog "debug"] ->
  only_fetches q (EvRequest q :: iterations q sl n ++ last)
  /\ fetches (EvRequest q :: iterations q sl n ++ last)
     = S (sleeps (EvRequest q :: iterations q sl n ++ last)).
Proof.
  intros Hlast. split.
  - constructor; [reflexivity|]. apply Forall_app.
    split; [apply only_fetches_iterations|].
    destruct Hlast as [->| ->]; repeat constructor. discriminate.
  - change (EvRequest q :: iterations q sl n ++ last)
      with ([EvRequest q] ++ iterations q sl n ++ last).
    rewrite !fetches_app, !sleeps_app, fetches_iterations, sleeps_iterations.
    change (fetches [EvRequest q]) with 1%nat. change (sleeps [EvRequest q]) with 0%nat.
    destruct Hlast as [->| ->].
    + change (fetches []) with 0%nat. change (sleeps []) with 0%nat. lia.
    + change (fetches [EvLog "debug"]) with 0%nat.
      change (sleeps [EvLog "debug"]) with 0%nat. lia.
Qed.

(** X7.  In every run of a wait helper, finished or not, the requests made
    are all the helper's own fetch (nothing else is read, nothing is
    written), and there is one fetch more than there are sleeps: every
    sleep is followed by a fetch. *)
Theorem X7_only_fetches_between_sleeps :
  forall (remote : Remote) (expectedStatus : JsVal)
         (timeoutInSeconds sleepTimeInSeconds : option Z) (fuel : nat),
    (forall subscriptionId,
        let w := snd (waitForSubscriptionStatus remote subscriptionId expectedStatus
                        timeoutInSeconds sleepTimeInSeconds fuel []) in
        only_fetches (GetSubscription subscriptionId) w /\ fetches w = S (sleeps w))
    /\ (forall subscriptionId vpcPeeringId,
        let w := snd (waitForVpcPeeringStatus remote subscriptionId vpcPeeringId
                        expectedStatus timeoutInSeconds sleepTimeInSeconds fuel []) in
        only_fetches (GetVpcPeerings subscriptionId) w /\ fetches w = S (sleeps w))
    /\ (forall subscriptionId databaseId,
        let w := snd (waitForDatabaseStatus remote subscriptionId databaseId
                        expectedStatus timeoutInSeconds sleepTimeInSeconds fuel []) in
        only_fetches (GetDatabase subscriptionId databaseId) w
        /\ fetches w = S (sleeps w))
    /\ (forall cloudAccountId,
        let w := snd (waitForCloudAccountStatus remote cloudAccountId expectedStatus
                        timeoutInSeconds sleepTimeInSeconds fuel []) in
        only_fetches (GetCloudAccount cloudAccountId) w /\ fetches w = S (sleeps w)).
Proof.
  intros remote expectedStatus timeoutInSeconds sleepTimeInSeconds fuel.
  assert (Hlast : forall A (o : Outcome A),
            match o with Resolved _ => [EvLog "debug"] | _ => [] end = []
            \/ match o with Resolved _ => [EvLog "debug"] | _ => [] end = [EvLog "debug"])
    by (intros A [a|e|]; auto).
  split; [|split; [|split]].
  - intros subscriptionId w. subst w.
    destruct (helper_trace remote _ (fun x => x) (fun _ x => x) _ (fun x => x)
                _ _ _ _ _ (waitForSubscriptionStatus_poll remote subscriptionId
                             expectedStatus timeoutInSeconds sleepTimeInSeconds) fuel)
      as (n & ->).
    apply trace_alternates, Hlast.
  - intros subscriptionId vpcPeeringId w. subst w.
    destruct (helper_trace remote _ _ _ _ (fun s => fst s)
                _ _ _ _ _ (vpc_polling_poll remote subscriptionId
                             vpcPeeringId expectedStatus timeoutInSeconds
                             sleepTimeInSeconds) fuel)
      as (n & Hw).
    destruct (trace_alternates (GetVpcPeerings subscriptionId)
                (or_default sleepTimeInSeconds 5) n _
                (Hlast _ (fst (vpc_polling remote subscriptionId vpcPeeringId
                                 expectedStatus timeoutInSeconds sleepTimeInSeconds
                                 fuel []))))
      as [Honly Hn].
    rewrite <- Hw in Honly, Hn.
    destruct (vpc_wait_counts remote subscriptionId vpcPeeringId expectedStatus
                timeoutInSeconds sleepTimeInSeconds fuel [])
      as (-> & -> & _).
    split; [now apply vpc_wait_only_fetches|exact Hn].
  - intros subscriptionId databaseId w. subst w.
    destruct (helper_trace remote _ (fun x => x) (fun _ x => x) _ (fun x => x)
                _ _ _ _ _ (waitForDatabaseStatus_poll remote subscriptionId databaseId
                             expectedStatus timeoutInSeconds sleepTimeInSeconds) fuel)
      as (n & ->).
    apply trace_alternates, Hlast.
  - intros cloudAccountId w. subst w.
    destruct (helper_trace remote _ (fun x => x) (fun _ x => x) _ (fun x => x)
                _ _ _ _ _ (waitForCloudAccountStatus_poll remote cloudAccountId
                             expectedStatus timeoutInSeconds sleepTimeInSeconds) fuel)
      as (n & ->).
    apply trace_alternates, Hlast.
Qed.

(** X8.  [waitForVpcPeeringStatus] never resolves.  Whatever the remote
    service answers and whatever the arguments, a run of it is still
    polling, or rejected with the error of a request that failed, or, once
    its loop is left or skipped, rejected by the read of [status] at line
    357: line 358, which returns [vpcPeering], is never reached. *)
Theorem X8_peering_wait_never_resolves :
  forall (remote : Remote) (subscriptionId vpcPeeringId : Z) (expectedStatus : JsVal)
         (timeoutInSeconds sleepTimeInSeconds : option Z) (fuel : nat),
    let outcome :=
      fst (waitForVpcPeeringStatus remote subscriptionId vpcPeeringId expectedStatus
             timeoutInSeconds sleepTimeInSeconds fuel []) in
    outcome = Pending
    \/ outcome = Rejected (ReferenceError "status")
    \/ exists (k : nat) (e : Error),
         remote k _ (GetVpcPeerings subscriptionId) = Fail e /\ outcome = Rejected e.
Proof.
  intros remote subscriptionId vpcPeeringId expectedStatus timeoutInSeconds
         sleepTimeInSeconds fuel outcome. subst outcome.
  destruct (vpc_wait_cases remote subscriptionId vpcPeeringId expectedStatus
              timeoutInSeconds sleepTimeInSeconds fuel [])
    as [(a & w & _ & Hw)|[(x & w & Hp & Hw)|(w & _ & Hw)]]; rewrite Hw; cbn [fst].
  - right. left. reflexivity.
  - right. right.
    destruct (helper_failed_request remote (GetVpcPeerings subscriptionId)
                (vpc_init vpcPeeringId) (vpc_upd vpcPeeringId) snd (fun s => fst s)
                expectedStatus (JStr "failed")
                (or_default timeoutInSeconds 300) (or_default sleepTimeInSeconds 5)
                _ (vpc_polling_poll remote subscriptionId vpcPeeringId expectedStatus
                     timeoutInSeconds sleepTimeInSeconds) fuel x w Hp)
      as (k & e & Hk & ->).
    now exists k, e.
  - left. reflexivity.
Qed.

(** ** [waitForSubscriptionDatabasesStatus] on any list of databases *)

Section Databases.

Variable remote : Remote.
Variable subscriptionId : Z.
Variable expectedStatus : JsVal.
Variables timeoutInSeconds sleepTimeInSeconds : Z.
Variable fuel : nat.

(** The body of the [for] loop. *)
Local Abbreviation wait_each :=
  (fun database : DatabaseResponse.t =>
     waitForDatabaseStatus remote subscriptionId (DatabaseResponse.databaseId database)
       expectedStatus (Some timeoutInSeconds) (Some sleepTimeInSeconds) fuel ;;
     ret tt).

Local Abbreviation wait_poll databaseId :=
  (waitForDatabaseStatus_poll remote subscriptionId databaseId expectedStatus
     (Some timeoutInSeconds) (Some sleepTimeInSeconds)).

(** Every database stops the loop at its first fetch. *)
Lemma for_of_checked (l : list DatabaseResponse.t) :
  forall w : World,
    (forall i d, nth_error l i = Some d ->
       exists r,
         remote (fetches w + i)%nat _
           (GetDatabase subscriptionId (DatabaseResponse.databaseId d)) = Ok r
         /\ continuing expectedStatus (JStr "error") (DatabaseResponse.status r) = false) ->
    for_of l wait_each w
    = (Resolved tt, w ++ flat_map (database_checked subscriptionId) l).
Proof.
  induction l as [|a l IH]; intros w H.
  - simpl. unfold ret. now rewrite app_nil_r.
  - destruct (H O a eq_refl) as (r & Hr & Hstop). rewrite Nat.add_0_r in Hr.
    change (for_of (a :: l) wait_each w)
      with ((wait_each a ;; for_of l wait_each) w).
    unfold bind at 1. unfold bind at 1.
    rewrite (helper_immediate_from remote _ (fun x => x) (fun _ x => x) _ (fun x => x)
               _ _ _ _ _ (wait_poll (DatabaseResponse.databaseId a)) w r fuel Hr Hstop).
    unfold ret at 1. rewrite IH.
    + simpl flat_map. unfold database_checked at 2. now rewrite <- app_assoc.
    + intros i d Hi. rewrite fetches_app.
      change (fetches [EvRequest (GetDatabase subscriptionId
                                    (DatabaseResponse.databaseId a));
                       EvLog "debug"]) with 1%nat.
      replace (fetches w + 1 + i)%nat with (fetches w + S i)%nat by lia.
      apply (H (S i) d Hi).
Qed.

(** The requests of the loop, whatever its outcome: the waits in the order
    of the list, each on its own database. *)
Lemma for_of_in_order (l : list DatabaseResponse.t) :
  forall w : World,
  exists ws : list World,
    snd (for_of l wait_each w) = w ++ List.concat ws
    /\ Forall2
         (fun d wd =>
            only_fetches (GetDatabase subscriptionId (DatabaseResponse.databaseId d)) wd)
         (firstn (List.length ws) l) ws.
Proof.
  induction l as [|a l IH]; intros w.
  - exists []. simpl. rewrite app_nil_r. split; [reflexivity|constructor].
  - change (for_of (a :: l) wait_each w)
      with ((wait_each a ;; for_of l wait_each) w).
    unfold bind at 1. unfold bind at 1.
    destruct (helper_world remote _ (fun x => x) (fun _ x => x) _ (fun x => x)
                _ _ _ _ _ (wait_poll (DatabaseResponse.databaseId a)) fuel w)
      as (wa & Hwa & Honly & _).
    destruct (waitForDatabaseStatus remote subscriptionId (DatabaseResponse.databaseId a)
                expectedStatus (Some timeoutInSeconds) (Some sleepTimeInSeconds) fuel w)
      as [[r|e|] w1]; cbn [snd] in Hwa; subst w1.
    + unfold ret at 1. destruct (IH (w ++ wa)) as (ws & Hws & Hall).
      exists (wa :: ws). rewrite Hws. simpl. split; [now rewrite <- app_assoc|].
      constructor; assumption.
    + exists [wa]. simpl. rewrite app_nil_r. split; [reflexivity|].
      repeat constructor. exact Honly.
    + exists [wa]. simpl. rewrite app_nil_r. split; [reflexivity|].
      repeat constructor. exact Honly.
Qed.

End Databases.

Section DatabasesMore.

Variable remote : Remote.
Variable subscriptionId : Z.
Variable expectedStatus : JsVal.
Variables timeoutInSeconds sleepTimeInSeconds : Z.
Variable fuel : nat.

Local Abbreviation wait_each :=
  (fun database : DatabaseResponse.t =>
     waitForDatabaseStatus remote subscriptionId (DatabaseResponse.databaseId database)
       expectedStatus (Some timeoutInSeconds) (Some sleepTimeInSeconds) fuel ;;
     ret tt).

Local Abbreviation wait_poll databaseId :=
  (waitForDatabaseStatus_poll remote subscriptionId databaseId expectedStatus
     (Some timeoutInSeconds) (Some sleepTimeInSeconds)).

Local Abbreviation budget := (Z.to_nat (timeoutInSeconds / sleepTimeInSeconds) + 1)%nat.

(** No database ever leaves the loop by its status: each wait lasts until
    the timeout, one wait after the other. *)
Lemma for_of_timed_out (rs : nat -> Z -> DatabaseResponse.t) (l : list DatabaseResponse.t) :
  0 <= timeoutInSeconds ->
  0 < sleepTimeInSeconds ->
  (budget <= fuel)%nat ->
  (forall k databaseId,
     remote k _ (GetDatabase subscriptionId databaseId) = Ok (rs k databaseId)) ->
  (forall k databaseId,
     continuing expectedStatus (JStr "error")
       (DatabaseResponse.status (rs k databaseId)) = true) ->
  forall w : World,
    for_of l wait_each w
    = (Resolved tt,
       w ++ flat_map
              (fun d => polling_trace
                          (GetDatabase subscriptionId (DatabaseResponse.databaseId d))
                          sleepTimeInSeconds budget) l).
Proof.
  intros Hto Hsl Hfuel Hok Hgo.
  induction l as [|a l IH]; intros w.
  - simpl. unfold ret. now rewrite app_nil_r.
  - change (for_of (a :: l) wait_each w)
      with ((wait_each a ;; for_of l wait_each) w).
    unfold bind at 1. unfold bind at 1.
    rewrite (helper_returns_from remote _ (fun x => x) (fun _ x => x) _ (fun x => x)
               _ _ _ _ _ (wait_poll (DatabaseResponse.databaseId a)) budget
               (fun k => rs (fetches w + k)%nat (DatabaseResponse.databaseId a)) w fuel).
    + unfold ret at 1. rewrite IH.
      change (flat_map ?f (a :: l)) with (f a ++ flat_map f l).
      cbv beta. now rewrite <- app_assoc.
    + intros k _. apply Hok.
    + intros k Hk. rewrite observed_last. split; [apply Hgo|].
      unfold or_default.
      pose proof (Z.mul_div_le timeoutInSeconds sleepTimeInSeconds Hsl).
      assert (0 <= timeoutInSeconds / sleepTimeInSeconds) by (apply Z.div_pos; lia).
      assert (Hk' : Z.of_nat k <= timeoutInSeconds / sleepTimeInSeconds) by lia.
      apply (Z.mul_le_mono_nonneg_r _ _ sleepTimeInSeconds) in Hk'; lia.
    + right. unfold or_default. now apply budget_exceeded.
    + exact Hfuel.
Qed.

Lemma timed_out_counts (l : list DatabaseResponse.t) :
  fetches (flat_map
             (fun d => polling_trace
                         (GetDatabase subscriptionId (DatabaseResponse.databaseId d))
                         sleepTimeInSeconds budget) l)
  = (List.length l * S budget)%nat
  /\ slept (flat_map
              (fun d => polling_trace
                          (GetDatabase subscriptionId (DatabaseResponse.databaseId d))
                          sleepTimeInSeconds budget) l)
     = Z.of_nat (List.length l) * (Z.of_nat budget * sleepTimeInSeconds).
Proof.
  induction l as [|a l [IHf IHs]]; [split; reflexivity|].
  change (flat_map ?f (a :: l)) with (f a ++ flat_map f l).
  cbv beta. rewrite fetches_app, slept_app.
  destruct (polling_trace_counts
              (GetDatabase subscriptionId (DatabaseResponse.databaseId a))
              sleepTimeInSeconds budget) as (Hf & _ & Hs).
  rewrite Hf, Hs, IHf, IHs.
  change (List.length (a :: l)) with (S (List.length l)). split; lia.
Qed.


End DatabasesMore.

(** The first request of [waitForSubscriptionDatabasesStatus] is answered
    with the list [databases]: what follows is the loop over that list. *)
Lemma waitForSubscriptionDatabasesStatus_start (remote : Remote) (subscriptionId : Z)
    (expectedStatus : option JsVal) (timeoutInSeconds sleepTimeInSeconds : option Z)
    (fuel : nat) (databases : list DatabaseResponse.t) :
  remote O _ (GetDatabases subscriptionId) = Ok databases ->
  waitForSubscriptionDatabasesStatus remote subscriptionId expectedStatus
    timeoutInSeconds sleepTimeInSeconds fuel []
  = for_of databases
      (fun database =>
         waitForDatabaseStatus remote subscriptionId (DatabaseResponse.databaseId database)
           (or_default expectedStatus (JStr "active"))
           (Some (or_default timeoutInSeconds 300))
           (Some (or_default sleepTimeInSeconds 5)) fuel ;;
         ret tt)
      [EvRequest (GetDatabases subscriptionId)].
Proof.
  intros H. unfold waitForSubscriptionDatabasesStatus, getDatabases, bind at 1, request.
  change (fetches []) with O. rewrite H. reflexivity.
Qed.

(** X9.  [waitForSubscriptionDatabasesStatus] on any list of databases, the
    empty one included: when the first fetch of each database shows a status
    that stops its loop (the expected one, [error] or no status at all), the
    call resolves after one request for the list and one fetch per database,
    in the order of the list, without sleeping.  A database in [error] does
    not make the call fail: what the waits return is dropped. *)
Theorem X9_each_database_checked_once :
  forall (remote : Remote) (subscriptionId : Z) (expectedStatus : option JsVal)
         (timeoutInSeconds sleepTimeInSeconds : option Z) (fuel : nat)
         (databases : list DatabaseResponse.t),
    remote O _ (GetDatabases subscriptionId) = Ok databases ->
    (forall i database, nth_error databases i = Some database ->
       exists r,
         remote (S i) _
           (GetDatabase subscriptionId (DatabaseResponse.databaseId database)) = Ok r
         /\ continuing (or_default expectedStatus (JStr "active")) (JStr "error")
              (DatabaseResponse.status r) = false) ->
    waitForSubscriptionDatabasesStatus remote subscriptionId expectedStatus
      timeoutInSeconds sleepTimeInSeconds fuel []
    = (Resolved tt,
       EvRequest (GetDatabases subscriptionId)
         :: flat_map (database_checked subscriptionId) databases).
Proof.
  intros remote subscriptionId expectedStatus timeoutInSeconds sleepTimeInSeconds
         fuel databases Hlist Hstop.
  rewrite (waitForSubscriptionDatabasesStatus_start remote subscriptionId expectedStatus
             timeoutInSeconds sleepTimeInSeconds fuel databases Hlist).
  rewrite for_of_checked; [reflexivity|].
  intros i d Hi. apply (Hstop i d Hi).
Qed.

Lemma X9_each_database_checked_once_witness :
  waitForSubscriptionDatabasesStatus
    (status_feed (script [JStr "pending"; JStr "error"] (JStr "active")))
    7 None None None 0 []
  = (Resolved tt,
     [EvRequest (GetDatabases 7);
      EvRequest (GetDatabase 7 1); EvLog "debug";
      EvRequest (GetDatabase 7 2); EvLog "debug"]).
Proof.
  apply (X9_each_database_checked_once
           (status_feed (script [JStr "pending"; JStr "error"] (JStr "active")))
           7 None None None 0
           [DatabaseResponse.mk 1 (JStr "pending") [];
            DatabaseResponse.mk 2 (JStr "pending") []]).
  - reflexivity.
  - intros [|[|i]] d Hi.
    + inversion Hi. eexists. split; reflexivity.
    + inversion Hi. eexists. split; reflexivity.
    + destruct i; discriminate Hi.
Defined.

(** X10.  The timeout of [waitForSubscriptionDatabasesStatus] applies to
    each database on its own, not to the call: with a timeout that is not
    negative, a positive sleep time and durations on which the sums are
    exact, when no status ever stops a loop, the call resolves after every
    database has been polled until its own timeout, so after
    [floor(timeout / sleep) + 2] fetches and
    [(floor(timeout / sleep) + 1) * sleep] seconds of sleep per database. *)
Theorem X10_timeout_applies_to_each_database :
  forall (remote : Remote) (subscriptionId : Z) (expectedStatus : option JsVal)
         (timeoutInSeconds sleepTimeInSeconds : option Z)
         (databases : list DatabaseResponse.t) (rs : nat -> Z -> DatabaseResponse.t),
    0 <= or_default timeoutInSeconds 300 ->
    0 < or_default sleepTimeInSeconds 5 ->
    exact_durations (or_default timeoutInSeconds 300) (or_default sleepTimeInSeconds 5) ->
    remote O _ (GetDatabases subscriptionId) = Ok databases ->
    (forall k databaseId,
       remote k _ (GetDatabase subscriptionId databaseId) = Ok (rs k databaseId)) ->
    (forall k databaseId,
       continuing (or_default expectedStatus (JStr "active")) (JStr "error")
         (DatabaseResponse.status (rs k databaseId)) = true) ->
    exists w : World,
      returns (waitForSubscriptionDatabasesStatus remote subscriptionId expectedStatus
                 timeoutInSeconds sleepTimeInSeconds) tt w
      /\ fetches w
         = S (List.length databases
              * (Z.to_nat (or_default timeoutInSeconds 300
                           / or_default sleepTimeInSeconds 5) + 2))
      /\ slept w
         = Z.of_nat (List.length databases)
           * ((or_default timeoutInSeconds 300 / or_default sleepTimeInSeconds 5 + 1)
              * or_default sleepTimeInSeconds 5).
Proof.
  intros remote subscriptionId expectedStatus timeoutInSeconds sleepTimeInSeconds
         databases rs.
  generalize (or_default timeoutInSeconds 300)
             (waitForSubscriptionDatabasesStatus_start remote subscriptionId
                expectedStatus timeoutInSeconds sleepTimeInSeconds).
  intros timeout.
  generalize (or_default sleepTimeInSeconds 5).
  intros sl Hstart Hto Hsl _ Hlist Hok Hgo.
  assert (Hdiv : 0 <= timeout / sl) by (apply Z.div_pos; lia).
  exists ([EvRequest (GetDatabases subscriptionId)]
          ++ flat_map
               (fun d => polling_trace
                           (GetDatabase subscriptionId (DatabaseResponse.databaseId d))
                           sl (Z.to_nat (timeout / sl) + 1)) databases).
  split; [|split].
  - exists (Z.to_nat (timeout / sl) + 1)%nat. intros fuel Hfuel.
    rewrite (Hstart fuel databases Hlist).
    apply (for_of_timed_out remote subscriptionId
             (or_default expectedStatus (JStr "active")) timeout sl fuel rs databases
             Hto Hsl Hfuel Hok Hgo).
  - rewrite fetches_app.
    destruct (timed_out_counts subscriptionId timeout sl databases) as [Hf _].
    rewrite Hf. change (fetches [EvRequest (GetDatabases subscriptionId)]) with 1%nat.
    lia.
  - rewrite slept_app.
    destruct (timed_out_counts subscriptionId timeout sl databases) as [_ Hs].
    rewrite Hs. change (slept [EvRequest (GetDatabases subscriptionId)]) with 0.
    rewrite Nat2Z.inj_add, Z2Nat.id by lia. change (Z.of_nat 1) with 1. lia.
Qed.

Lemma X10_timeout_applies_to_each_database_witness :
  0 <= 10 /\ 0 < 5 /\ exact_durations 10 5
  /\ exists w : World,
      returns (waitForSubscriptionDatabasesStatus
                 (status_feed (fun _ => JStr "pending")) 7 None (Some 10) (Some 5)) tt w
      /\ fetches w = 9%nat
      /\ slept w = 30.
Proof.
  assert (Hto : 0 <= 10) by lia. assert (Hsl : 0 < 5) by lia.
  assert (Hex : exact_durations 10 5) by (unfold exact_durations, max_exact; lia).
  split; [exact Hto|]. split; [exact Hsl|]. split; [exact Hex|].
  destruct (X10_timeout_applies_to_each_database
              (status_feed (fun _ => JStr "pending")) 7 None (Some 10) (Some 5)
              [DatabaseResponse.mk 1 (JStr "pending") [];
               DatabaseResponse.mk 2 (JStr "pending") []]
              (fun _ databaseId => DatabaseResponse.mk databaseId (JStr "pending") [])
              Hto Hsl Hex eq_refl (fun _ _ => eq_refl) (fun _ _ => eq_refl))
    as (w & Hret & Hf & Hs).
  exists w. split; [exact Hret|]. split; [exact Hf|exact Hs].
Defined.



(** X12.  Whatever the remote service answers and however long the call has
    run, the events of [waitForSubscriptionDatabasesStatus] are the one
    request for the list of databases followed by one block of events per
    database waited for so far; the blocks follow the order of the list and
    the requests of a block are all fetches of its own database.  So the
    list is requested once and never again, and no database outside it is
    fetched. *)
Theorem X12_databases_waited_in_list_order :
  forall (remote : Remote) (subscriptionId : Z) (expectedStatus : option JsVal)
         (timeoutInSeconds sleepTimeInSeconds : option Z) (fuel : nat)
         (databases : list DatabaseResponse.t),
    remote O _ (GetDatabases subscriptionId) = Ok databases ->
    exists ws : list World,
      snd (waitForSubscriptionDatabasesStatus remote subscriptionId expectedStatus
             timeoutInSeconds sleepTimeInSeconds fuel [])
      = EvRequest (GetDatabases subscriptionId) :: List.concat ws
      /\ Forall2
           (fun database w =>
              only_fetches
                (GetDatabase subscriptionId (DatabaseResponse.databaseId database)) w)
           (firstn (List.length ws) databases) ws.
Proof.
  intros remote subscriptionId expectedStatus timeoutInSeconds sleepTimeInSeconds
         fuel databases Hlist.
  rewrite (waitForSubscriptionDatabasesStatus_start remote subscriptionId expectedStatus
             timeoutInSeconds sleepTimeInSeconds fuel databases Hlist).
  destruct (for_of_in_order remote subscriptionId
              (or_default expectedStatus (JStr "active"))
              (or_default timeoutInSeconds 300) (or_default sleepTimeInSeconds 5)
              fuel databases [EvRequest (GetDatabases subscriptionId)])
    as (ws & Hw & Hall).
  exists ws. split; [exact Hw|exact Hall].
Qed.

Lemma X12_databases_waited_in_list_order_witness :
  exists ws : list World,
    snd (waitForSubscriptionDatabasesStatus
           (status_feed (script [JStr "active"; JStr "pending"; JStr "active"]
                           (JStr "pending")))
           7 None None None 2 [])
    = EvRequest (GetDatabases 7) :: List.concat ws
    /\ Forall2
         (fun database w =>
            only_fetches (GetDatabase 7 (DatabaseResponse.databaseId database)) w)
         (firstn (List.length ws)
            [DatabaseResponse.mk 1 (JStr "active") [];
             DatabaseResponse.mk 2 (JStr "active") []])
         ws.
Proof.
  apply (X12_databases_waited_in_list_order
           (status_feed (script [JStr "active"; JStr "pending"; JStr "active"]
                           (JStr "pending")))
           7 None None None 2
           [DatabaseResponse.mk 1 (JStr "active") [];
            DatabaseResponse.mk 2 (JStr "active") []]).
  reflexivity.
Defined.

Section HelperPost.

Context {A X V : Type}.
Variable remote : Remote.
Variable q : Request X.
Variable init : X -> V.
Variable upd : V -> X -> V.
Variable st : V -> JsVal.
Variable out : V -> A.
Variables expectedStatus sentinel : JsVal.
Variables timeout sl : Z.
Variable run : nat -> Async A.

Hypothesis run_poll : forall fuel w,
  run fuel w
  = (r <- poll remote fuel q init upd st expectedStatus sentinel timeout sl ;;
     log "debug" ;;
     ret (out (fst r))) w.


End HelperPost.



